(** * Valshi-X: whale-trade detection and alerting

    A shallow embedding of the trade valuation, whale detection,
    de-duplication, reconnect back-off, REST wrappers, tweet formatting
    and publishing code of the bot, together with the properties the
    design document states about them.

    Python values are modelled as the code meets them:
    - [int] is [Z] (unbounded);
    - [float] is IEEE-754 binary64, through the reference semantics of
      [SpecFloat] ([SFdiv] with precision 53 and exponent bound 1024);
    - [str] is a list of Unicode code points ([len] counts code points);
    - JSON scalars are [pyval]: null, integers and strings;
    - a [dict] with string keys is a [gmap string _], a [set] is a [gset];
    - a raised exception is the [Raise] case of [res]. *)

From Stdlib Require Import ZArith QArith Lia List String Ascii.
From Stdlib Require Import Floats.SpecFloat.
From stdpp Require Import base mapset gmap strings list sorting.

Local Open Scope Z_scope.

(** ** Python values *)

Module Py.

(** A Python [str]: its code points. *)
Abbreviation str := (list N).

(** An ASCII literal of the source as a Python [str]. *)
Definition lit (s : string) : str :=
  List.map N_of_ascii (list_ascii_of_string s).

(** The JSON scalars the exchange sends. *)
Inductive pyval :=
  | PNone
  | PInt (z : Z)
  | PStr (s : str).

#[global] Instance pyval_eq_dec : EqDecision pyval.
Proof. solve_decision. Defined.

#[global] Instance pyval_countable : Countable pyval.
Proof.
  refine (inj_countable'
    (fun v => match v with
              | PNone => inl tt
              | PInt z => inr (inl z)
              | PStr s => inr (inr s)
              end)
    (fun x => match x with
              | inl _ => PNone
              | inr (inl z) => PInt z
              | inr (inr s) => PStr s
              end) _).
  intros []; reflexivity.
Defined.

(** A JSON object of scalars, as [json.loads] and [requests] return it. *)
Abbreviation dict := (gmap string pyval).

(** [d.get(k, dflt)]: the default only replaces an absent key; a key
    that is present with value [None] yields [None]. *)
Definition get (d : dict) (k : string) (dflt : pyval) : pyval :=
  default dflt (d !! k).

(** [s.add(x)] on a set of scalars, by insertion in the map that carries
    the set; it is [{[x]} ∪ s]. *)
Definition set_add (x : pyval) (s : gset pyval) : gset pyval :=
  Mapset (<[x := tt]> (mapset_car s)).

(** [set(l)]: the elements of the list, added one at a time. *)
Definition set_of_list (l : list pyval) : gset pyval :=
  foldr set_add ∅ l.

(** Truthiness of a value, as [if x:] tests it. *)
Definition truthy (v : pyval) : bool :=
  match v with
  | PNone => false
  | PInt z => negb (z =? 0)
  | PStr s => negb (bool_decide (s = []))
  end.

(** Exceptions the modelled code can raise. *)
Inductive exn :=
  | TypeError
  | AttributeError
  | OverflowError
  | ZeroDivisionError
  | ValueError.

(** The outcome of a call: a value, or a raised exception. *)
Inductive res (A : Type) :=
  | Ok (a : A)
  | Raise (e : exn).
Arguments Ok {A} a.
Arguments Raise {A} e.

#[global] Instance res_bind : MBind res := fun A B k r =>
  match r with
  | Ok a => k a
  | Raise e => Raise e
  end.

(** *** Floats *)

Abbreviation float := spec_float.

Definition prec : Z := 53.
Definition emax : Z := 1024.

(** An integer as an exact (unnormalised) binary number. *)
Definition Z2SF (z : Z) : float :=
  match z with
  | Z0 => S754_zero false
  | Zpos p => S754_finite false p 0
  | Zneg p => S754_finite true p 0
  end.

(** [float(z)]: the nearest binary64 value, [OverflowError] beyond range. *)
Definition float_of_int (z : Z) : res float :=
  match binary_normalize prec emax z 0 false with
  | S754_infinity _ => Raise OverflowError
  | f => Ok f
  end.

(** [a / b] on two ints: the correctly rounded quotient. *)
Definition int_truediv (a b : Z) : res float :=
  if b =? 0 then Raise ZeroDivisionError
  else match SFdiv prec emax (Z2SF a) (Z2SF b) with
       | S754_infinity _ => Raise OverflowError
       | f => Ok f
       end.

(** [x / b] on a float and an int: the int is converted first. *)
Definition float_truediv (x : float) (b : Z) : res float :=
  if b =? 0 then Raise ZeroDivisionError
  else fb ← float_of_int b; Ok (SFdiv prec emax x fb).

(** The exact rational value of a finite float (0 for the others). *)
Definition F2Q (f : float) : Q :=
  match f with
  | S754_finite s m e =>
      let z := if s then Zneg m else Zpos m in
      match e with
      | Z0 => z # 1
      | Zpos p => (z * 2 ^ Zpos p) # 1
      | Zneg p => z # (2 ^ p)%positive
      end
  | _ => 0%Q
  end.

(** [x >= z] for a float and an int: Python compares the exact values. *)
Definition float_ge_int (x : float) (z : Z) : bool :=
  match x with
  | S754_nan => false
  | S754_infinity s => negb s
  | S754_zero _ => z <=? 0
  | S754_finite _ _ _ => Qle_bool (inject_Z z) (F2Q x)
  end.

(** [x * y] on JSON scalars: integer product, string repetition, or
    [TypeError]. *)
Definition repeat_str (s : str) (n : Z) : str :=
  List.concat (List.repeat s (Z.to_nat n)).

Definition mul (x y : pyval) : res pyval :=
  match x, y with
  | PInt a, PInt b => Ok (PInt (a * b))
  | PInt n, PStr s | PStr s, PInt n => Ok (PStr (repeat_str s n))
  | _, _ => Raise TypeError
  end.

(** [x / b] for a JSON scalar and an int. *)
Definition truediv (x : pyval) (b : Z) : res float :=
  match x with
  | PInt a => int_truediv a b
  | _ => Raise TypeError
  end.

(** *** Strings and number formatting *)

(** [len(s)] as a Python int. *)
Definition len (s : str) : Z := Z.of_nat (length s).

(** [sep.join(parts)]. *)
Fixpoint join (sep : str) (parts : list str) : str :=
  match parts with
  | [] => []
  | [p] => p
  | p :: rest => p ++ sep ++ join sep rest
  end.

(** The upper-casing of the ASCII letters, which is what [s.upper()]
    does on an ASCII string; other code points are kept. *)
Definition upper_char (c : N) : N :=
  if ((97 <=? c) && (c <=? 122))%N then (c - 32)%N else c.

Definition ascii_upper (s : str) : str := List.map upper_char s.

(** [old] is a prefix of [s]. *)
Fixpoint starts_with (old s : str) : bool :=
  match old, s with
  | [], _ => true
  | _ :: _, [] => false
  | a :: old', b :: s' => (a =? b)%N && starts_with old' s'
  end.

(** The scan of [str.replace] for a non-empty [old]: [skip] counts the
    code points of a match that are still to be passed over. *)
Fixpoint replace_scan (old new : str) (skip : nat) (s : str) : str :=
  match s with
  | [] => []
  | c :: s' =>
      match skip with
      | S k => replace_scan old new k s'
      | O =>
          if starts_with old s
          then new ++ replace_scan old new (length old - 1) s'
          else c :: replace_scan old new 0 s'
      end
  end.

(** [s.replace(old, new)]: every non-overlapping occurrence, leftmost
    first; an empty [old] matches before every code point and at the end. *)
Definition replace (s old new : str) : str :=
  match old with
  | [] => new ++ List.concat (List.map (fun c => c :: new) s)
  | _ :: _ => replace_scan old new 0 s
  end.

(** The decimal digit [d] as a code point. *)
Definition digit (d : Z) : N := (48 + Z.to_N d)%N.

Fixpoint digits_fuel (fuel : nat) (n : Z) : str :=
  match fuel with
  | O => []
  | S f =>
      if n <? 10 then [digit n]
      else digits_fuel f (n / 10) ++ [digit (n mod 10)]
  end.

(** The decimal digits of a non-negative integer; a number has no more
    decimal digits than binary ones. *)
Definition decimal (n : Z) : str :=
  digits_fuel (S (Z.to_nat (Z.log2 n))) n.

Definition minus_sign (neg : bool) : str := if neg then lit "-" else [].

(** [str(z)], which is also [f"{z}"]. *)
Definition str_of_int (z : Z) : str :=
  minus_sign (z <? 0) ++ decimal (Z.abs z).

(** Commas between groups of three digits, on the reversed digits. *)
Fixpoint group3_rev (ds : str) : str :=
  match ds with
  | a :: b :: c :: ((_ :: _) as rest) => a :: b :: c :: 44%N :: group3_rev rest
  | _ => ds
  end.

(** [f"{z:,}"]. *)
Definition format_int_commas (z : Z) : str :=
  minus_sign (z <? 0) ++ rev (group3_rev (rev (decimal (Z.abs z)))).

(** [f"{v}"] for a JSON scalar. *)
Definition format_val (v : pyval) : str :=
  match v with
  | PNone => lit "None"
  | PInt z => str_of_int z
  | PStr s => s
  end.

(** The integer nearest to the non-negative rational [q], ties to even. *)
Definition round_half_even (q : Q) : Z :=
  let a := Qnum q in
  let b := Zpos (Qden q) in
  let fl := a / b in
  match 2 * (a mod b) ?= b with
  | Lt => fl
  | Gt => fl + 1
  | Eq => if Z.even fl then fl else fl + 1
  end.

(** [m] in decimal, left-padded with zeros to [width] digits. *)
Definition zero_pad (width : nat) (m : Z) : str :=
  let ds := decimal m in
  List.repeat 48%N (width - length ds) ++ ds.

Definition sign_bit (x : float) : bool :=
  match x with
  | S754_zero s | S754_infinity s | S754_finite s _ _ => s
  | S754_nan => false
  end.

(** [f"{x:.Nf}"]: the exact value of the float, rounded to [N] decimals
    with ties to even, as the correctly rounded conversion of CPython. *)
Definition format_fixed (decimals : nat) (x : float) : str :=
  match x with
  | S754_nan => lit "nan"
  | S754_infinity s => minus_sign s ++ lit "inf"
  | _ =>
      let scale := 10 ^ Z.of_nat decimals in
      let n := round_half_even (F2Q (SFabs x) * inject_Z scale) in
      minus_sign (sign_bit x) ++ decimal (n / scale) ++
      match decimals with
      | O => []
      | S _ => lit "." ++ zero_pad decimals (n mod scale)
      end
  end.

End Py.

Import Py.

(** ** trade_monitor.py: the Trade record *)

Module TradeMonitor.

Record Trade := mkTrade {
  trade_id : pyval;
  ticker : pyval;
  side : pyval;
  count : pyval;
  yes_price : pyval;
  no_price : pyval;
  created_time : pyval;
  value_cents : pyval;
  value_dollars : float
}.

(** [Trade.__init__]. *)
Definition Trade_init (data : dict) : res Trade :=
  let trade_id := get data "trade_id" (PStr []) in
  let ticker := get data "ticker" (PStr []) in
  let side := get data "side" (PStr []) in
  let count := get data "count" (PInt 0) in
  let yes_price := get data "yes_price" (PInt 0) in
  let no_price := get data "no_price" (PInt 0) in
  let created_time := get data "created_time" (PStr []) in
  value_cents ←
    (if bool_decide (side = PStr (lit "yes"))
     then mul count yes_price
     else mul count no_price);
  value_dollars ← truediv value_cents 100;
  Ok (mkTrade trade_id ticker side count yes_price no_price created_time
        value_cents value_dollars).

(** [Trade.is_whale]. *)
Definition is_whale (t : Trade) (threshold_dollars : Z) : bool :=
  float_ge_int (value_dollars t) threshold_dollars.

End TradeMonitor.

(** ** tweet_formatter.py *)

Module TweetFormatter.
Import TradeMonitor.

Definition whale_emoji : N := 128011%N.   (* U+1F40B *)
Definition chart_emoji : N := 128202%N.   (* U+1F4CA *)
Definition cent_sign : N := 162%N.        (* U+00A2 *)

(** [TweetFormatter.format_currency]. *)
Definition format_currency (amount : float) : res str :=
  if float_ge_int amount 1000000 then
    x ← float_truediv amount 1000000;
    Ok (lit "$" ++ format_fixed 1 x ++ lit "M")
  else if float_ge_int amount 1000 then
    x ← float_truediv amount 1000;
    Ok (lit "$" ++ format_fixed 0 x ++ lit "K")
  else
    Ok (lit "$" ++ format_fixed 0 amount).

(** [TweetFormatter.get_market_url]. *)
Definition get_market_url (ticker : pyval) : str :=
  lit "https://kalshi.com/?search=" ++ format_val ticker.

Section Formatter.

(** [str.upper] of Python: the upper-casing of Unicode, which can change
    the length of a string. *)
Variable upper : str -> str.

(** [x.upper()] needs a string. *)
Definition val_upper (v : pyval) : res str :=
  match v with
  | PStr s => Ok (upper s)
  | _ => Raise AttributeError
  end.

(** [f"{v:,}"]. *)
Definition val_commas (v : pyval) : res str :=
  match v with
  | PInt z => Ok (format_int_commas z)
  | PStr _ => Raise ValueError
  | PNone => Raise TypeError
  end.

(** [len(v)]. *)
Definition val_len (v : pyval) : res Z :=
  match v with
  | PStr s => Ok (len s)
  | _ => Raise TypeError
  end.

Definition newline : str := [10%N].

(** The first, full rendering. *)
Definition full_parts (value title contracts side price_cents price_pct url : str)
  : list str :=
  [ whale_emoji :: lit " Whale Alert!";
    [];
    value ++ lit " trade on " ++ title;
    [];
    chart_emoji :: lit " " ++ contracts ++ lit " " ++ side ++
      lit " contracts @ " ++ price_cents ++ cent_sign :: lit " (" ++
      price_pct ++ lit "%)";
    [];
    lit "@Kalshi @KalshiEco";
    [];
    url ].

(** The second, compact rendering. *)
Definition compact_parts (value contracts side price_cents url : str)
  : list str :=
  [ whale_emoji :: lit " " ++ value ++ lit " whale trade";
    contracts ++ lit " " ++ side ++ lit " contracts @ " ++ price_cents ++
      [cent_sign];
    lit "@Kalshi @KalshiEco";
    url ].

(** [TweetFormatter.format_whale_tweet]. *)
Definition format_whale_tweet (trade : Trade) (market : dict) : res str :=
  let title := get market "title" (PStr (lit "Unknown Market")) in
  let ticker := trade.(ticker) in
  side ← val_upper trade.(side);
  value ← format_currency trade.(value_dollars);
  contracts ← val_commas trade.(count);
  let price_cents :=
    if bool_decide (trade.(TradeMonitor.side) = PStr (lit "yes"))
    then trade.(yes_price) else trade.(no_price) in
  price_pct ← truediv price_cents 100;
  let url := get_market_url ticker in
  let tweet :=
    join newline
      (full_parts value (format_val title) contracts side
         (format_val price_cents) (format_fixed 0 price_pct) url) in
  if 280 <? len tweet then
    title_len ← val_len title;
    let max_title_len := title_len - (len tweet - 280) - 3 in
    if 20 <? max_title_len then
      let truncated_title :=
        firstn (Z.to_nat max_title_len) (format_val title) ++ lit "..." in
      Ok (replace tweet (format_val title) truncated_title)
    else
      Ok (join newline
            (compact_parts value contracts side (format_val price_cents) url))
  else
    Ok tweet.

End Formatter.

End TweetFormatter.

(** ** x_client.py *)

Module XClient.

(** The text [post_tweet] hands to [create_tweet]. *)
Definition outgoing_text (text : str) : str :=
  if 280 <? len text then firstn 277 text ++ lit "..." else text.

Record posted := mkPosted {
  sent_text : str;          (* the argument of [create_tweet] *)
  returned_id : option pyval  (* the result of [post_tweet] *)
}.

(** [XClient.post_tweet]; [create_tweet] is the X API: it raises, or
    returns the [data] of its response ([None] for an empty response). *)
Definition post_tweet (create_tweet : str -> res (option dict)) (text : str)
  : posted :=
  let text := outgoing_text text in
  mkPosted text
    match create_tweet text with
    | Ok (Some data) => data !! "id"
    | Ok None => None
    | Raise _ => None
    end.

End XClient.

(** ** kalshi_client.py *)

Module KalshiClient.

(** A value inside a response object. *)
Inductive json :=
  | JScalar (v : pyval)
  | JList (l : list dict)
  | JObj (d : dict).

(** A response object, the [Dict] of [_make_request]. *)
Abbreviation body := (gmap string json).

(** What [session.request] does: it raises, or answers with a status
    code and a body ([None] when [response.json()] raises or is null). *)
Inductive http_outcome :=
  | TransportError
  | Response (status_code : Z) (parsed : option body).

(** [KalshiClient._make_request]. *)
Definition make_request (o : http_outcome) : option body :=
  match o with
  | Response status_code parsed =>
      if status_code =? 200 then parsed else None
  | TransportError => None
  end.

(** [if result], for the response object. *)
Definition body_truthy (r : body) : bool := negb (bool_decide (r = ∅)).

(** [d.get(k, dflt)] and [d.get(k)] on a response object. *)
Definition body_get (r : body) (k : string) (dflt : json) : json :=
  default dflt (r !! k).

Definition body_get_none (r : body) (k : string) : json :=
  default (JScalar PNone) (r !! k).

(** [KalshiClient.get_markets]. *)
Definition get_markets (o : http_outcome) : option json :=
  match make_request o with
  | Some result =>
      if body_truthy result then Some (body_get result "markets" (JList []))
      else None
  | None => None
  end.

(** [KalshiClient.get_market]; a missing key is Python's [None]. *)
Definition get_market (o : http_outcome) : option json :=
  match make_request o with
  | Some result =>
      if body_truthy result then
        match body_get_none result "market" with
        | JScalar PNone => None
        | v => Some v
        end
      else None
  | None => None
  end.

(** [KalshiClient.get_trades]. *)
Definition get_trades (o : http_outcome) : option json :=
  match make_request o with
  | Some result =>
      if body_truthy result then Some (body_get result "trades" (JList []))
      else None
  | None => None
  end.

(** [KalshiClient.get_orderbook]. *)
Definition get_orderbook (o : http_outcome) : option body :=
  match make_request o with
  | Some result => if body_truthy result then Some result else None
  | None => None
  end.

End KalshiClient.

(** ** trade_monitor.py: the polling monitor *)

Module Monitor.
Import TradeMonitor KalshiClient.

(** [l[-n:]] for a positive [n]. *)
Definition last_n {A} (n : Z) (l : list A) : list A :=
  drop (length l - Z.to_nat n) l.

(** [len(s)] of a set. *)
Definition set_len (s : gset pyval) : Z := Z.of_nat (size s).

Record monitor := mkMonitor {
  threshold_dollars : Z;
  seen_trade_ids : gset pyval;
  market_cache : gmap pyval dict
}.

(** [TradeMonitor.__init__]. *)
Definition new_monitor (threshold_dollars : Z) : monitor :=
  mkMonitor threshold_dollars ∅ ∅.

(** [if market], for market details. *)
Definition json_truthy (j : json) : bool :=
  match j with
  | JScalar v => truthy v
  | JList l => negb (bool_decide (l = []))
  | JObj d => negb (bool_decide (d = ∅))
  end.

Section Polling.

(** The order in which CPython iterates over a set; the language leaves
    it unspecified. *)
Variable set_order : gset pyval -> list pyval.

(** The memory guard at the end of a cycle. *)
Definition compact (seen : gset pyval) : gset pyval :=
  if 10000 <? set_len seen
  then set_of_list (last_n 5000 (set_order seen))
  else seen.

(** [TradeMonitor.get_market_details]; [fetched] is what
    [kalshi_client.get_market] answers if it is called now.  Market
    details are objects of scalars. *)
Definition get_market_details (st : monitor) (ticker : pyval)
    (fetched : option dict) : monitor * option dict :=
  let st' :=
    match st.(market_cache) !! ticker with
    | Some _ => st
    | None =>
        match fetched with
        | Some market =>
            if bool_decide (market = ∅) then st
            else mkMonitor st.(threshold_dollars) st.(seen_trade_ids)
                   (<[ticker := market]> st.(market_cache))
        | None => st
        end
    end in
  (st', st'.(market_cache) !! ticker).

(** [TradeMonitor.fetch_recent_trades]: a record whose [Trade] cannot be
    built is skipped; iterating over a string or an object yields
    strings, none of which parses; an integer is not iterable. *)
Definition fetch_recent_trades (trades_data : option json)
  : res (list Trade) :=
  match trades_data with
  | None => Ok []
  | Some j =>
      if json_truthy j then
        match j with
        | JList l =>
            Ok (omap (fun d => match Trade_init d with
                               | Ok t => Some t
                               | Raise _ => None
                               end) l)
        | JScalar (PInt _) => Raise TypeError
        | _ => Ok []
        end
      else Ok []
  end.

(** The loop of [find_new_whale_trades]; [markets i] is the answer of the
    exchange to a market request made while the [i]-th trade is handled. *)
Fixpoint whale_loop (markets : nat -> option dict) (i : nat)
    (trades : list Trade) (st : monitor) (new_whales : list (Trade * dict))
  : monitor * list (Trade * dict) :=
  match trades with
  | [] => (st, new_whales)
  | trade :: rest =>
      if bool_decide (trade.(trade_id) ∈ st.(seen_trade_ids)) then
        whale_loop markets (S i) rest st new_whales
      else
        let st1 :=
          mkMonitor st.(threshold_dollars)
            (set_add trade.(trade_id) st.(seen_trade_ids))
            st.(market_cache) in
        if is_whale trade st1.(threshold_dollars) then
          let '(st2, market_details) :=
            get_market_details st1 trade.(ticker) (markets i) in
          match market_details with
          | Some m =>
              if bool_decide (m = ∅)
              then whale_loop markets (S i) rest st2 new_whales
              else whale_loop markets (S i) rest st2
                     (new_whales ++ [(trade, m)])
          | None => whale_loop markets (S i) rest st2 new_whales
          end
        else whale_loop markets (S i) rest st1 new_whales
  end.

(** [TradeMonitor.find_new_whale_trades]; [trades_data] is the answer of
    [kalshi_client.get_trades] for this cycle. *)
Definition find_new_whale_trades (st : monitor) (trades_data : option json)
    (markets : nat -> option dict)
  : res (monitor * list (Trade * dict)) :=
  trades ← fetch_recent_trades trades_data;
  let '(st', new_whales) := whale_loop markets 0 trades st [] in
  Ok (mkMonitor st'.(threshold_dollars) (compact st'.(seen_trade_ids))
        st'.(market_cache),
      new_whales).

(** A polling session, as [ValshiX.run] drives it: one cycle after
    another, until a cycle raises, which ends the run. *)
Fixpoint poll_session (st : monitor)
    (cycles : list (option json * (nat -> option dict)))
  : monitor * list (list (Trade * dict)) :=
  match cycles with
  | [] => (st, [])
  | (trades_data, markets) :: rest =>
      match find_new_whale_trades st trades_data markets with
      | Ok (st', whales) =>
          let '(st'', out) := poll_session st' rest in (st'', whales :: out)
      | Raise _ => (st, [])
      end
  end.

End Polling.

End Monitor.

(** ** websocket_client.py *)

Module WebSocketClient.

Record client := mkClient {
  websocket : bool;          (* [self.websocket] is not [None] *)
  running : bool;
  reconnect_delay : Z;
  max_reconnect_delay : Z
}.

(** [KalshiWebSocketClient.__init__]. *)
Definition new_client : client := mkClient false false 1 60.

(** What the network does during one turn of the loop of [listen]. *)
Inductive recv_outcome :=
  | Message          (* a frame arrives and is handled *)
  | Timeout (ping_ok : bool)
  | ConnectionClosed
  | OtherError.      (* any other exception, also one raised by a frame *)

Record turn := mkTurn {
  connect_ok : bool;         (* the outcome of [connect], if it is called *)
  received : recv_outcome
}.

(** [KalshiWebSocketClient.connect]: a success stores the socket and
    resets the delay; a failure changes nothing. *)
Definition connect (c : client) (ok : bool) : client * bool :=
  if ok
  then (mkClient true c.(running) 1 c.(max_reconnect_delay), true)
  else (c, false).

Definition after_recv (c : client) (r : recv_outcome) : client :=
  match r with
  | Message => c
  | Timeout true => c
  | Timeout false | ConnectionClosed =>
      mkClient false c.(running) c.(reconnect_delay) c.(max_reconnect_delay)
  | OtherError => c
  end.

(** One turn of the [while self.running] loop of [listen]; the second
    component is the time slept in this turn. *)
Definition listen_turn (c : client) (t : turn) : client * Z :=
  if negb c.(websocket) then
    let '(c1, ok) := connect c t.(connect_ok) in
    if negb ok then
      (mkClient c1.(websocket) c1.(running)
         (Z.min (c1.(reconnect_delay) * 2) c1.(max_reconnect_delay))
         c1.(max_reconnect_delay),
       c1.(reconnect_delay))
    else
      (after_recv c1 t.(received),
       match t.(received) with OtherError => 1 | _ => 0 end)
  else
    (after_recv c t.(received),
     match t.(received) with OtherError => 1 | _ => 0 end).

(** [listen], over the turns the network allows. *)
Fixpoint listen_turns (c : client) (ts : list turn) : client :=
  match ts with
  | [] => c
  | t :: rest => listen_turns (fst (listen_turn c t)) rest
  end.

(** A turn in which [connect] fails. *)
Definition failed_turn : turn := mkTurn false Message.

(** An inbound frame: its [type] and, when the key is there, its [msg]
    object. *)
Record frame := mkFrame {
  frame_type : option pyval;
  frame_msg : option dict
}.

Section Normalizer.

(** [datetime.fromtimestamp(ts).isoformat()], which depends on the local
    time zone of the host. *)
Variable isoformat : Z -> res str.

(** [KalshiWebSocketClient._timestamp_to_iso]. *)
Definition timestamp_to_iso (ts : pyval) : res str :=
  match ts with
  | PInt z => s ← isoformat z; Ok (s ++ lit "Z")
  | _ => Raise TypeError
  end.

(** [d.get(k)]. *)
Definition get_none (d : dict) (k : string) : pyval := get d k PNone.

(** The dictionary [handle_message] builds for a trade frame. *)
Definition normalized_trade (trade_data : dict) : res dict :=
  created_time ← timestamp_to_iso (get trade_data "ts" (PInt 0));
  Ok (<["trade_id" := get_none trade_data "trade_id"]>
     (<["ticker" := get_none trade_data "market_ticker"]>
     (<["taker_side" := get_none trade_data "taker_side"]>
     (<["count" := get_none trade_data "count"]>
     (<["yes_price" := get_none trade_data "yes_price"]>
     (<["no_price" := get_none trade_data "no_price"]>
     (<["created_time" := PStr created_time]> ∅))))))).

(** [KalshiWebSocketClient.handle_message]: the dictionary handed to the
    trade callback, if any. *)
Definition handle_message (data : frame) : res (option dict) :=
  if bool_decide (data.(frame_type) = Some (PStr (lit "trade"))) then
    let trade_data := default ∅ data.(frame_msg) in
    normalized_trade ← normalized_trade trade_data;
    Ok (Some normalized_trade)
  else Ok None.

End Normalizer.

End WebSocketClient.

(** ** bot_websocket.py *)

Module Bot.
Import TradeMonitor TweetFormatter XClient.

Record bot := mkBot {
  seen_trade_ids : gset pyval;
  market_cache : gmap pyval dict
}.

(** The state [ValshiXWebSocket.__init__] leaves. *)
Definition new_bot : bot := mkBot ∅ ∅.

Section Streaming.

(** [str.upper] of Python. *)
Variable upper : str -> str.

Variable set_order : gset pyval -> list pyval.

(** [Config.WHALE_THRESHOLD_DOLLARS]. *)
Variable WHALE_THRESHOLD_DOLLARS : Z.

(** The X API behind [XClient.post_tweet]. *)
Variable create_tweet : str -> res (option dict).

(** [ValshiXWebSocket.get_market_details]. *)
Definition get_market_details (st : bot) (ticker : pyval)
    (fetched : option dict) : bot * option dict :=
  let st' :=
    match st.(market_cache) !! ticker with
    | Some _ => st
    | None =>
        match fetched with
        | Some market =>
            if bool_decide (market = ∅) then st
            else mkBot st.(seen_trade_ids)
                   (<[ticker := market]> st.(market_cache))
        | None => st
        end
    end in
  (st', st'.(market_cache) !! ticker).

(** [ValshiXWebSocket.post_whale_trade]: the texts handed to X. *)
Definition post_whale_trade (trade : Trade) (market : dict) : list str :=
  match format_whale_tweet upper trade market with
  | Ok tweet_text => [ (post_tweet create_tweet tweet_text).(sent_text) ]
  | Raise _ => []
  end.

(** [ValshiXWebSocket.handle_trade]; [fetched] is the answer of the
    exchange to a market request made now.  An exception anywhere in
    the body is caught by the handler and only logged. *)
Definition handle_trade (st : bot) (trade_data : dict)
    (fetched : option dict) : bot * list str :=
  let trade_id := get trade_data "trade_id" (PStr []) in
  if bool_decide (trade_id ∈ st.(seen_trade_ids)) then (st, [])
  else
    let st1 := mkBot (set_add trade_id st.(seen_trade_ids)) st.(market_cache) in
    match Trade_init trade_data with
    | Raise _ => (st1, [])
    | Ok trade =>
        match val_upper upper trade.(side) with
        | Raise _ => (st1, [])
        | Ok _ =>
            let '(st2, sent) :=
              if is_whale trade WHALE_THRESHOLD_DOLLARS then
                let '(st2, market) :=
                  get_market_details st1 trade.(ticker) fetched in
                match market with
                | Some m =>
                    if bool_decide (m = ∅) then (st2, [])
                    else (st2, post_whale_trade trade m)
                | None => (st2, [])
                end
              else (st1, []) in
            (mkBot (Monitor.compact set_order st2.(seen_trade_ids))
               st2.(market_cache),
             sent)
        end
    end.

(** A streaming session: the callback on one normalised trade after
    another. *)
Fixpoint stream_session (st : bot) (msgs : list (dict * option dict))
  : bot * list (list str) :=
  match msgs with
  | [] => (st, [])
  | (trade_data, fetched) :: rest =>
      let '(st', sent) := handle_trade st trade_data fetched in
      let '(st'', out) := stream_session st' rest in
      (st'', sent :: out)
  end.

End Streaming.

End Bot.

(** ** kalshi_client.py: request signing *)

Module KalshiAuth.

(** [path.split('?')[0]]: the path up to its first question mark. *)
Fixpoint before_query (path : str) : str :=
  match path with
  | [] => []
  | c :: rest => if (c =? 63)%N then [] else c :: before_query rest
  end.

Abbreviation headers := (gmap string str).

Section Signing.

(** [KalshiClient._sign_message]: RSA-PSS over SHA-256, in base64. *)
Variable sign_message : str -> str.

(** The string [_get_auth_headers] signs. *)
Definition msg_string (timestamp method path : str) : str :=
  timestamp ++ method ++ before_query path.

(** [KalshiClient._get_auth_headers]; [timestamp] is the clock in
    milliseconds, in decimal. *)
Definition get_auth_headers (api_key_id timestamp method path : str)
  : headers :=
  <["Content-Type" := lit "application/json"]>
  (<["KALSHI-ACCESS-KEY" := api_key_id]>
  (<["KALSHI-ACCESS-SIGNATURE" := sign_message (msg_string timestamp method path)]>
  (<["KALSHI-ACCESS-TIMESTAMP" := timestamp]> ∅))).

(** The headers [_make_request] sends: [headers.update(extra)] lets the
    headers of the caller replace the generated ones. *)
Definition request_headers (api_key_id timestamp method endpoint : str)
    (extra : option headers) : headers :=
  let generated := get_auth_headers api_key_id timestamp method endpoint in
  match extra with
  | Some h => h ∪ generated
  | None => generated
  end.

(** The URL [_make_request] calls. *)
Definition request_url (base_url endpoint : str) : str := base_url ++ endpoint.

End Signing.

End KalshiAuth.

(** ** config.py *)

Module Config.

Record config := mkConfig {
  KALSHI_API_KEY_ID : str;
  KALSHI_PRIVATE_KEY : str;
  KALSHI_API_BASE : str;
  X_API_KEY : str;
  X_API_SECRET : str;
  X_ACCESS_TOKEN : str;
  X_ACCESS_TOKEN_SECRET : str;
  CHECK_INTERVAL_SECONDS : Z;
  WHALE_THRESHOLD_DOLLARS : Z
}.

(** The class attributes before [load_from_env]. *)
Definition defaults : config :=
  mkConfig [] [] (lit "https://api.elections.kalshi.com") [] [] [] []
    60 100000.

(** [not s], for a string. *)
Definition missing (s : str) : bool := bool_decide (s = []).

(** [Config.validate]. *)
Definition validate (c : config) : bool * option str :=
  if missing c.(KALSHI_API_KEY_ID) then
    (false, Some (lit "KALSHI_API_KEY_ID is required"))
  else if missing c.(KALSHI_PRIVATE_KEY) then
    (false, Some (lit "KALSHI_PRIVATE_KEY is required"))
  else if missing c.(X_API_KEY) then
    (false, Some (lit "X_API_KEY is required"))
  else if missing c.(X_API_SECRET) then
    (false, Some (lit "X_API_SECRET is required"))
  else if missing c.(X_ACCESS_TOKEN) then
    (false, Some (lit "X_ACCESS_TOKEN is required"))
  else if missing c.(X_ACCESS_TOKEN_SECRET) then
    (false, Some (lit "X_ACCESS_TOKEN_SECRET is required"))
  else (true, None).

End Config.

(** ** bot.py: the polling bot *)

Module PollingBot.
Import TradeMonitor TweetFormatter XClient.

Section Posting.

(** [str.upper] of Python. *)
Variable upper : str -> str.

(** The X API behind [XClient.post_tweet]. *)
Variable create_tweet : str -> res (option dict).

(** The loop of [ValshiX.post_whale_trades]: the texts handed to X and
    the seconds slept; [many] is [len(whale_trades) > 1].  A trade whose
    formatting raises is logged and skipped, sleep included. *)
Fixpoint post_loop (many : bool) (whale_trades : list (Trade * dict))
  : list str * Z :=
  match whale_trades with
  | [] => ([], 0)
  | (trade, market) :: rest =>
      let '(sent, slept) := post_loop many rest in
      match format_whale_tweet upper trade market with
      | Ok tweet_text =>
          ((post_tweet create_tweet tweet_text).(sent_text) :: sent,
           (if many then 2 else 0) + slept)
      | Raise _ => (sent, slept)
      end
  end.

(** [ValshiX.post_whale_trades]. *)
Definition post_whale_trades (whale_trades : list (Trade * dict))
  : list str * Z :=
  post_loop (1 <? Z.of_nat (length whale_trades)) whale_trades.

End Posting.

End PollingBot.

(** ** Sample records *)

Module Samples.
Import TradeMonitor.

(** [{ticker:"FED-24DEC", side:"yes", count:2000, yes_price:75}]. *)
Definition fed_trade : dict :=
  <["ticker" := PStr (lit "FED-24DEC")]>
  (<["side" := PStr (lit "yes")]>
  (<["count" := PInt 2000]>
  (<["yes_price" := PInt 75]> ∅))).

(** A trade worth $99,999.99: one cent below a threshold of $100,000. *)
Definition cent_below_trade : dict :=
  <["side" := PStr (lit "yes")]>
  (<["count" := PInt 9999999]>
  (<["yes_price" := PInt 1]> ∅)).

(** A trade worth exactly $100,000. *)
Definition at_threshold_trade : dict :=
  <["side" := PStr (lit "no")]>
  (<["count" := PInt 200000]>
  (<["no_price" := PInt 50]> ∅)).

(** The float of an integer literal of the source. *)
Definition float_lit (z : Z) : float := binary_normalize prec emax z 0 false.

(** A trade frame of the streaming feed: the taker bought 10 'yes'
    contracts at 90 cents. *)
Definition stream_msg : dict :=
  <["trade_id" := PStr (lit "t-1")]>
  (<["market_ticker" := PStr (lit "FED-24DEC")]>
  (<["taker_side" := PStr (lit "yes")]>
  (<["count" := PInt 10]>
  (<["yes_price" := PInt 90]>
  (<["no_price" := PInt 10]>
  (<["ts" := PInt 1733054400]> ∅)))))).

(** A record within the data model (side 'yes', a price of 50 cents, a
    ticker of 50 characters) whose contract count has 71 digits. *)
Definition huge_count_trade : dict :=
  <["ticker" := PStr (List.repeat 75%N 50)]>
  (<["side" := PStr (lit "yes")]>
  (<["count" := PInt (10 ^ 70)]>
  (<["yes_price" := PInt 50]> ∅))).

Definition short_title_market : dict :=
  <["title" := PStr (lit "Rates")]> ∅.

(** A market whose title has 300 characters. *)
Definition long_title_market : dict :=
  <["title" := PStr (List.repeat 84%N 300)]> ∅.

(** 150,000 'yes' contracts at 75 cents: a whale worth $112,500. *)
Definition whale_trade : dict :=
  <["trade_id" := PStr (lit "w-1")]>
  (<["ticker" := PStr (lit "FED-24DEC")]>
  (<["side" := PStr (lit "yes")]>
  (<["count" := PInt 150000]>
  (<["yes_price" := PInt 75]>
  (<["no_price" := PInt 25]> ∅))))).

(** The order in which CPython iterates over a set of small
    non-negative ints: their hash is their value and the table is larger
    than the largest of them, so they sit in increasing order. *)
Definition int_key (v : pyval) : Z :=
  match v with
  | PInt z => z
  | _ => 0
  end.

Definition key_le (x y : pyval) : Prop := int_key x <= int_key y.

#[global] Instance key_le_dec x y : Decision (key_le x y) := Z_le_dec _ _.

Definition ascending_order (s : gset pyval) : list pyval :=
  merge_sort key_le (elements s).

(** A small trade: 10 'no' contracts at 25 cents. *)
Definition small_trade (id : pyval) : dict :=
  <["trade_id" := id]>
  (<["ticker" := PStr (lit "FED-24DEC")]>
  (<["side" := PStr (lit "no")]>
  (<["count" := PInt 10]>
  (<["yes_price" := PInt 75]>
  (<["no_price" := PInt 25]> ∅))))).

(** The $112,500 whale, with trade id 0. *)
Definition whale_zero : dict := <["trade_id" := PInt 0]> whale_trade.

Definition fed_market : dict :=
  <["title" := PStr (lit "Fed decision in December?")]> ∅.

(** Cycle [k] of a quiet hour: the exchange returns the 100 small trades
    with ids [100k+1 .. 100k+100]. *)
Definition quiet_cycle (k : nat)
  : option KalshiClient.json * (nat -> option dict) :=
  (Some (KalshiClient.JList
           (List.map (fun i => small_trade (PInt (Z.of_nat (100 * k + i))))
              (seq 1 100))),
   fun _ => Some fed_market).

(** A cycle in which the exchange returns the whale. *)
Definition whale_cycle : option KalshiClient.json * (nat -> option dict) :=
  (Some (KalshiClient.JList [whale_zero]), fun _ => Some fed_market).

(** A short session: the whale, a quiet cycle, and the whale again. *)
Definition short_session
  : list (option KalshiClient.json * (nat -> option dict)) :=
  [whale_cycle; quiet_cycle 0; whale_cycle].

(** A session of 102 cycles: 100 quiet ones (10,000 trade ids), then the
    whale in two consecutive fetches. *)
Definition refetch_session
  : list (option KalshiClient.json * (nat -> option dict)) :=
  List.map quiet_cycle (seq 0 100) ++ [whale_cycle; whale_cycle].

(** The seen set after 10,000 distinct trades, with ids 1 to 10,000. *)
Definition seen_ten_thousand : gset pyval :=
  set_of_list (List.map (fun i => PInt (Z.of_nat i)) (seq 1 (Z.to_nat 10000))).

Definition full_bot : Bot.bot := Bot.mkBot seen_ten_thousand ∅.

(** A trade frame without the 'count' field. *)
Definition countless_msg : dict :=
  <["trade_id" := PInt 10001]> (delete "count" stream_msg).

(** The clock of a host in UTC, at that instant. *)
Definition sample_isoformat (ts : Z) : res str :=
  Ok (lit "2024-12-01T12:00:00").

(** What the normaliser makes of [stream_msg] on that host. *)
Definition stream_normalized : dict :=
  <["trade_id" := PStr (lit "t-1")]>
  (<["ticker" := PStr (lit "FED-24DEC")]>
  (<["taker_side" := PStr (lit "yes")]>
  (<["count" := PInt 10]>
  (<["yes_price" := PInt 90]>
  (<["no_price" := PInt 10]>
  (<["created_time" := PStr (lit "2024-12-01T12:00:00Z")]> ∅)))))).

(** What the normaliser makes of [countless_msg]: the count is [None]. *)
Definition countless_normalized : dict :=
  <["trade_id" := PInt 10001]>
  (<["ticker" := PStr (lit "FED-24DEC")]>
  (<["taker_side" := PStr (lit "yes")]>
  (<["count" := PNone]>
  (<["yes_price" := PInt 90]>
  (<["no_price" := PInt 10]>
  (<["created_time" := PStr (lit "2024-12-01T12:00:00Z")]> ∅)))))).

(** The value of a call that returned. *)
Definition returned {A} (dflt : A) (r : res A) : A :=
  match r with
  | Ok a => a
  | Raise _ => dflt
  end.

End Samples.

(** * Properties *)

Import TradeMonitor Samples.

(** ** Floats that are numbers *)

Definition is_finite (x : float) : bool :=
  match x with
  | S754_zero _ | S754_finite _ _ _ => true
  | _ => false
  end.

(** [n] is the integer nearest to [q], the even one of the two when [q]
    lies half way between them. *)
Definition nearest_even (n : Z) (q : Q) : Prop :=
  (inject_Z (2 * n - 1) <= inject_Z 2 * q)%Q /\
  (inject_Z 2 * q <= inject_Z (2 * n + 1))%Q /\
  ((inject_Z 2 * q == inject_Z (2 * n - 1))%Q \/
   (inject_Z 2 * q == inject_Z (2 * n + 1))%Q -> Z.even n = true).

(** The trade ids a polling session handles: those of the trades of
    each fetch, up to the cycle that raises, if any. *)
Fixpoint session_ids
    (cycles : list (option KalshiClient.json * (nat -> option dict)))
  : list pyval :=
  match cycles with
  | [] => []
  | (trades_data, _) :: rest =>
      match Monitor.fetch_recent_trades trades_data with
      | Ok trades => List.map trade_id trades ++ session_ids rest
      | Raise _ => []
      end
  end.

(** The trade ids of the frames of a streaming session. *)
Definition stream_ids (msgs : list (dict * option dict)) : list pyval :=
  List.map (fun msg => get (fst msg) "trade_id" (PStr [])) msgs.

(** The trade ids reported over the cycles of a session. *)
Definition reported_ids (outs : list (list (Trade * dict))) : list pyval :=
  concat (List.map (List.map (fun x => trade_id (fst x))) outs).

(** An iteration order lists each element of the set once. *)
Definition valid_order (order : gset pyval -> list pyval) : Prop :=
  forall s, order s ≡ₚ elements s.

Lemma iter_pos_preserves {A} (P : A -> Prop) (f : A -> A) :
  (forall x, P x -> P (f x)) ->
  forall n x, P x -> P (SpecFloat.iter_pos f n x).
Proof.
  intros Hf. induction n as [n IH|n IH|]; intros x Hx; simpl; auto.
Qed.

Lemma shr_1_nonneg mrs : 0 <= shr_m mrs -> 0 <= shr_m (shr_1 mrs).
Proof.
  destruct mrs as [m r s]. simpl.
  destruct m as [|[p|p|]|[p|p|]]; simpl; lia.
Qed.

Lemma shr_fexp_nonneg m e l :
  0 <= m -> 0 <= shr_m (fst (shr_fexp prec emax m e l)).
Proof.
  intros Hm. unfold shr_fexp, shr.
  assert (H0 : 0 <= shr_m (shr_record_of_loc m l)).
  { destruct l as [|[]]; simpl; exact Hm. }
  destruct (fexp prec emax (Zdigits2 m + e) - e) as [|p|p]; simpl; auto.
  apply (iter_pos_preserves (fun r => 0 <= shr_m r)); auto using shr_1_nonneg.
Qed.

Lemma round_nearest_even_nonneg m l : 0 <= m -> 0 <= round_nearest_even m l.
Proof.
  intros Hm. destruct l as [|[]]; simpl; try lia.
  destruct (Z.even m); lia.
Qed.

(** Rounding a non-negative mantissa never produces a NaN. *)
Lemma binary_round_aux_not_nan s m e l :
  0 <= m -> binary_round_aux prec emax s m e l <> S754_nan.
Proof.
  intros Hm. unfold binary_round_aux.
  pose proof (shr_fexp_nonneg m e l Hm) as H1.
  destruct (shr_fexp prec emax m e l) as [mrs' e'] eqn:E1. simpl in H1.
  pose proof (shr_fexp_nonneg _ e' loc_Exact
                (round_nearest_even_nonneg _ (loc_of_shr_record mrs') H1)) as H2.
  destruct (shr_fexp prec emax _ e' loc_Exact) as [mrs'' e''] eqn:E2.
  simpl in H2.
  destruct (shr_m mrs'') as [|p|p]; try discriminate; try lia.
  destruct (e'' <=? emax - prec); discriminate.
Qed.

Lemma int_truediv_finite a b x :
  int_truediv a b = Ok x -> is_finite x = true.
Proof.
  unfold int_truediv. destruct (b =? 0) eqn:Hb; [discriminate|].
  apply Z.eqb_neq in Hb.
  destruct a as [|pa|pa], b as [|pb|pb]; try lia; simpl Z2SF;
    try (simpl; intros [= <-]; reflexivity).
  all: unfold SFdiv;
    destruct (SFdiv_core_binary prec emax _ 0 _ 0) as [[mz ez] lz] eqn:E;
    assert (Hmz : 0 <= mz)
      by (unfold SFdiv_core_binary in E;
          match type of E with
          | (let '(q, r) := Z.div_eucl ?n ?d in _) = _ =>
              pose proof (Z.div_eucl_eq n d ltac:(lia)) as Hq;
              pose proof (Z.mod_pos_bound n d ltac:(lia)) as Hr;
              assert (Hn : 0 <= n);
              [| unfold Z.modulo in Hr; destruct (Z.div_eucl n d) as [q r];
                 injection E as <- _ _; nia ]
          end;
          match goal with
          | |- 0 <= match ?s with _ => _ end =>
              destruct s; try lia; apply Z.shiftl_nonneg; lia
          end);
    pose proof (fun s => binary_round_aux_not_nan s mz ez lz Hmz) as Hn;
    destruct (binary_round_aux prec emax _ mz ez lz) eqn:R;
    try discriminate; try (intros [= <-]; reflexivity);
    exfalso; eapply Hn; exact R.
Qed.

Lemma Trade_init_finite data t :
  Trade_init data = Ok t -> is_finite (value_dollars t) = true.
Proof.
  unfold Trade_init. cbn.
  destruct (if bool_decide _ then _ else _) as [vc|]; [|discriminate].
  cbn. destruct (truediv vc 100) as [vd|] eqn:E; [|discriminate].
  intros [= <-]. cbn.
  destruct vc; try discriminate. exact (int_truediv_finite _ _ _ E).
Qed.

Lemma float_ge_int_spec x z :
  is_finite x = true ->
  float_ge_int x z = true <-> (inject_Z z <= F2Q x)%Q.
Proof.
  destruct x as [s|s| |s m e]; try discriminate; intros _.
  - simpl. unfold Qle. simpl. rewrite Z.leb_le. lia.
  - unfold float_ge_int. apply Qle_bool_iff.
Qed.

(** ** Trade valuation *)

(** What [Trade.__init__] computes, when it returns. *)
Lemma Trade_init_inv data t :
  Trade_init data = Ok t ->
  exists c p,
    count t = PInt c /\
    (if bool_decide (side t = PStr (lit "yes"))
     then yes_price t else no_price t) = PInt p /\
    value_cents t = PInt (c * p) /\
    int_truediv (c * p) 100 = Ok (value_dollars t).
Proof.
  unfold Trade_init.
  set (sd := get data "side" _). set (c := get data "count" _).
  set (yp := get data "yes_price" _). set (np := get data "no_price" _).
  intros H.
  assert (Hmul : forall price vc vd,
            mul c price = Ok vc -> truediv vc 100 = Ok vd ->
            exists a b, c = PInt a /\ price = PInt b /\ vc = PInt (a * b) /\
                        int_truediv (a * b) 100 = Ok vd).
  { intros price vc vd Hm Hd.
    destruct c as [|a|sa], price as [|b|sb]; simpl in Hm; try discriminate;
      injection Hm as <-; simpl in Hd; try discriminate.
    exists a, b. auto. }
  destruct (bool_decide (sd = PStr (lit "yes"))) eqn:Hs; cbn in H.
  - destruct (mul c yp) as [vc|] eqn:Hm; [|discriminate]. cbn in H.
    destruct (truediv vc 100) as [vd|] eqn:Hd; [|discriminate].
    injection H as <-.
    cbv [side count yes_price no_price value_cents value_dollars]. rewrite Hs.
    destruct (Hmul _ _ _ Hm Hd) as (a & b & -> & -> & -> & Hq). eauto.
  - destruct (mul c np) as [vc|] eqn:Hm; [|discriminate]. cbn in H.
    destruct (truediv vc 100) as [vd|] eqn:Hd; [|discriminate].
    injection H as <-.
    cbv [side count yes_price no_price value_cents value_dollars]. rewrite Hs.
    destruct (Hmul _ _ _ Hm Hd) as (a & b & -> & -> & -> & Hq). eauto.
Qed.

(** The fields [Trade.__init__] copies from the record. *)
Lemma Trade_init_fields data t :
  Trade_init data = Ok t ->
  trade_id t = get data "trade_id" (PStr []) /\
  ticker t = get data "ticker" (PStr []) /\
  side t = get data "side" (PStr []) /\
  count t = get data "count" (PInt 0) /\
  yes_price t = get data "yes_price" (PInt 0) /\
  no_price t = get data "no_price" (PInt 0).
Proof.
  unfold Trade_init. cbn.
  destruct (if bool_decide _ then _ else _) as [vc|]; [|discriminate].
  cbn. destruct (truediv vc 100) as [vd|]; [|discriminate].
  intros [= <-]. cbn. unfold get. repeat split; reflexivity.
Qed.

Lemma Trade_init_created_time data t :
  Trade_init data = Ok t ->
  created_time t = get data "created_time" (PStr []).
Proof.
  unfold Trade_init. cbn.
  destruct (if bool_decide _ then _ else _) as [vc|]; [|discriminate].
  cbn. destruct (truediv vc 100) as [vd|]; [|discriminate].
  intros [= <-]. reflexivity.
Qed.

(** C1: for every trade record, the constructed trade carries the
    fields of the record (with their defaults), its [value_cents] is the
    record's count times the record's yes_price when the record's side
    is 'yes' and times its no_price otherwise, and its [value_dollars]
    is [value_cents / 100]; the FED-24DEC trade of 2000 contracts at 75
    cents is worth 150000 cents, that is exactly 1500 dollars, and is
    not a whale at a threshold of 100000. *)
Theorem trade_value_cents_and_dollars data t :
  Trade_init data = Ok t ->
  (trade_id t = get data "trade_id" (PStr []) /\
   ticker t = get data "ticker" (PStr []) /\
   side t = get data "side" (PStr []) /\
   count t = get data "count" (PInt 0) /\
   yes_price t = get data "yes_price" (PInt 0) /\
   no_price t = get data "no_price" (PInt 0) /\
   created_time t = get data "created_time" (PStr [])) /\
  (exists c p,
     get data "count" (PInt 0) = PInt c /\
     (if bool_decide (get data "side" (PStr []) = PStr (lit "yes"))
      then get data "yes_price" (PInt 0)
      else get data "no_price" (PInt 0)) = PInt p /\
     value_cents t = PInt (c * p) /\
     int_truediv (c * p) 100 = Ok (value_dollars t)) /\
  (data = fed_trade ->
     value_cents t = PInt 150000 /\
     (F2Q (value_dollars t) == inject_Z 1500)%Q /\
     is_whale t 100000 = false).
Proof.
  intros H.
  destruct (Trade_init_fields _ _ H) as (Hid & Htk & Hsd & Hc & Hy & Hn).
  destruct (Trade_init_inv _ _ H) as (c & p & Hcount & Hprice & Hvc & Hvd).
  split; [|split].
  - repeat split; try assumption. exact (Trade_init_created_time _ _ H).
  - exists c, p. rewrite <- Hc, <- Hsd, <- Hy, <- Hn. auto.
  - intros ->. vm_compute in H. injection H as <-.
    repeat split; vm_compute; congruence.
Qed.

Lemma trade_value_cents_and_dollars_witness :
  exists t, Trade_init fed_trade = Ok t /\
    value_cents t = PInt 150000 /\
    (F2Q (value_dollars t) == inject_Z 1500)%Q /\
    is_whale t 100000 = false.
Proof.
  destruct (Trade_init fed_trade) as [t|e] eqn:E; [|vm_compute in E; discriminate].
  exists t. split; [reflexivity|].
  exact (proj2 (proj2 (trade_value_cents_and_dollars fed_trade t E)) eq_refl).
Defined.

(** ** Whale detection *)

(** C2: for a constructed trade, [is_whale] holds exactly when
    [value_dollars >= threshold]; the comparison is inclusive (a value
    equal to the threshold is a whale, any value below it, such as the
    trade worth 99,999.99 against 100,000, is not); it is antitone in
    the threshold and monotone in the value. *)
Theorem is_whale_inclusive_and_monotone data t threshold :
  Trade_init data = Ok t ->
  (is_whale t threshold = true <->
     (inject_Z threshold <= F2Q (value_dollars t))%Q) /\
  ((F2Q (value_dollars t) == inject_Z threshold)%Q ->
     is_whale t threshold = true) /\
  ((F2Q (value_dollars t) < inject_Z threshold)%Q ->
     is_whale t threshold = false) /\
  (data = cent_below_trade -> threshold = 100000 ->
     value_cents t = PInt 9999999 /\ is_whale t threshold = false) /\
  (forall lower, lower <= threshold ->
     is_whale t threshold = true -> is_whale t lower = true) /\
  (forall data' t', Trade_init data' = Ok t' ->
     (F2Q (value_dollars t) <= F2Q (value_dollars t'))%Q ->
     is_whale t threshold = true -> is_whale t' threshold = true).
Proof.
  intros H. pose proof (Trade_init_finite _ _ H) as Hfin.
  pose proof (float_ge_int_spec (value_dollars t) threshold Hfin) as Hspec.
  unfold is_whale. repeat split.
  - apply Hspec.
  - apply Hspec.
  - intros Heq. apply Hspec. rewrite Heq. apply Qle_refl.
  - intros Hlt. apply not_true_is_false. intros E.
    apply Hspec in E. exact (Qlt_not_le _ _ Hlt E).
  - subst data. vm_compute in H. injection H as <-. reflexivity.
  - subst data threshold. vm_compute in H. injection H as <-. reflexivity.
  - intros lower Hle Hw.
    apply (float_ge_int_spec _ lower Hfin). apply Hspec in Hw.
    eapply Qle_trans; [|exact Hw].
    unfold Qle. simpl. lia.
  - intros data' t' H' Hle Hw.
    apply (float_ge_int_spec _ threshold (Trade_init_finite _ _ H')).
    apply Hspec in Hw. eapply Qle_trans; eassumption.
Qed.

Lemma is_whale_inclusive_and_monotone_witness :
  exists t, Trade_init cent_below_trade = Ok t /\
    value_cents t = PInt 9999999 /\ is_whale t 100000 = false.
Proof.
  destruct (Trade_init cent_below_trade) as [t|e] eqn:E;
    [|vm_compute in E; discriminate].
  exists t. split; [reflexivity|].
  exact (proj1 (proj2 (proj2 (proj2
           (is_whale_inclusive_and_monotone cent_below_trade t 100000 E))))
         eq_refl eq_refl).
Defined.

(** The trade worth exactly the threshold is a whale. *)
Example at_threshold_is_whale :
  exists t, Trade_init at_threshold_trade = Ok t /\
    (F2Q (value_dollars t) == inject_Z 100000)%Q /\ is_whale t 100000 = true.
Proof.
  eexists. split; [vm_compute; reflexivity|]. split; vm_compute; congruence.
Qed.

(** ** The streaming normalizer *)

Section NormalizerFacts.
Import WebSocketClient.
Variable isoformat : Z -> res str.

Lemma normalized_trade_inv trade_data nd :
  normalized_trade isoformat trade_data = Ok nd ->
  exists created,
    nd = <["trade_id" := get_none trade_data "trade_id"]>
         (<["ticker" := get_none trade_data "market_ticker"]>
         (<["taker_side" := get_none trade_data "taker_side"]>
         (<["count" := get_none trade_data "count"]>
         (<["yes_price" := get_none trade_data "yes_price"]>
         (<["no_price" := get_none trade_data "no_price"]>
         (<["created_time" := PStr created]> ∅)))))).
Proof.
  unfold normalized_trade.
  destruct (timestamp_to_iso isoformat _) as [created|]; cbn; [|discriminate].
  intros [= <-]. eauto.
Qed.

Lemma normalized_trade_fields trade_data nd :
  normalized_trade isoformat trade_data = Ok nd ->
  nd !! "side" = None /\
  nd !! "taker_side" = Some (get_none trade_data "taker_side") /\
  nd !! "count" = Some (get_none trade_data "count") /\
  nd !! "no_price" = Some (get_none trade_data "no_price").
Proof.
  intros H. destruct (normalized_trade_inv _ _ H) as [created ->].
  repeat split; simplify_map_eq; reflexivity.
Qed.

(** The reported taker side plays no part in what the constructor reads
    from the normalised record. *)
Lemma normalized_trade_taker_side trade_data nd v :
  normalized_trade isoformat trade_data = Ok nd ->
  exists nd',
    normalized_trade isoformat (<["taker_side" := v]> trade_data) = Ok nd' /\
    Trade_init nd' = Trade_init nd.
Proof.
  unfold normalized_trade, get.
  rewrite (lookup_insert_ne trade_data "taker_side" "ts" v) by done.
  destruct (timestamp_to_iso isoformat _) as [created|]; cbn; [|discriminate].
  intros [= <-]. eexists. split; [reflexivity|].
  unfold Trade_init, get_none, get. simplify_map_eq. reflexivity.
Qed.

End NormalizerFacts.

(** C9: the normaliser of the streaming client stores the side under
    'taker_side' and nothing under 'side'; a trade constructed from a
    normalised streaming payload therefore has the empty string as its
    side, its [value_cents] is [count * no_price], and neither changes
    with the reported taker side. *)
Theorem streaming_trade_ignores_taker_side
    (isoformat : Z -> res str) (trade_data nd : dict) (t : Trade) :
  WebSocketClient.normalized_trade isoformat trade_data = Ok nd ->
  Trade_init nd = Ok t ->
  nd !! "side" = None /\
  nd !! "taker_side" = Some (WebSocketClient.get_none trade_data "taker_side") /\
  side t = PStr [] /\
  (exists c p,
     WebSocketClient.get_none trade_data "count" = PInt c /\
     WebSocketClient.get_none trade_data "no_price" = PInt p /\
     value_cents t = PInt (c * p)) /\
  (forall v, exists nd',
     WebSocketClient.normalized_trade isoformat (<["taker_side" := v]> trade_data)
       = Ok nd' /\
     Trade_init nd' = Ok t).
Proof.
  intros Hn Ht.
  destruct (normalized_trade_fields isoformat _ _ Hn) as (Hs & Hts & Hc & Hp).
  destruct (Trade_init_fields _ _ Ht) as (_ & _ & Hside & Ec & _ & Ep).
  unfold get in Hside, Ec, Ep. rewrite Hs in Hside. rewrite Hc in Ec.
  rewrite Hp in Ep. cbn in Hside, Ec, Ep.
  repeat split; auto.
  - destruct (Trade_init_inv _ _ Ht) as (c & p & Hcount & Hprice & Hvc & _).
    rewrite Hside in Hprice. rewrite bool_decide_eq_false_2 in Hprice
      by (vm_compute; discriminate).
    exists c, p. rewrite <- Ec, <- Ep. auto.
  - intros v.
    destruct (normalized_trade_taker_side isoformat _ _ v Hn) as (nd' & E1 & E2).
    exists nd'. split; [exact E1|]. rewrite E2. exact Ht.
Qed.

Lemma streaming_trade_ignores_taker_side_witness :
  exists t,
    WebSocketClient.normalized_trade sample_isoformat stream_msg
      = Ok stream_normalized /\
    Trade_init stream_normalized = Ok t /\
    side t = PStr [] /\ value_cents t = PInt 100.
Proof.
  assert (En : WebSocketClient.normalized_trade sample_isoformat stream_msg
               = Ok stream_normalized) by (vm_compute; reflexivity).
  destruct (Trade_init stream_normalized) as [t|e] eqn:Et.
  - exists t. split; [exact En|]. split; [reflexivity|].
    destruct (streaming_trade_ignores_taker_side _ _ _ _ En Et)
      as (_ & _ & Hs & (c & p & Hc & Hp & Hv) & _).
    split; [exact Hs|].
    vm_compute in Hc, Hp. injection Hc as <-. injection Hp as <-. exact Hv.
  - exfalso. revert Et. vm_compute. discriminate.
Defined.

(** ** Reconnect back-off *)

Section Backoff.
Import WebSocketClient.

Lemma failed_turn_step c t :
  websocket c = false -> connect_ok t = false ->
  listen_turn c t =
    (mkClient false (running c)
       (Z.min (reconnect_delay c * 2) (max_reconnect_delay c))
       (max_reconnect_delay c),
     reconnect_delay c).
Proof.
  intros Hw Hc. unfold listen_turn, connect. rewrite Hw, Hc. cbn.
  rewrite Hw. reflexivity.
Qed.

Lemma failed_turns_delay ts : forall c k,
  websocket c = false -> max_reconnect_delay c = 60 -> 0 <= k ->
  reconnect_delay c = Z.min (2 ^ k) 60 ->
  Forall (fun t => connect_ok t = false) ts ->
  reconnect_delay (listen_turns c ts) = Z.min (2 ^ (k + Z.of_nat (length ts))) 60 /\
  websocket (listen_turns c ts) = false /\
  max_reconnect_delay (listen_turns c ts) = 60.
Proof.
  induction ts as [|t ts IH]; intros c k Hw Hmax Hk Hd Hall.
  - cbn. rewrite Z.add_0_r. auto.
  - inversion Hall as [|? ? Ht Hts]; subst. cbn [listen_turns].
    rewrite (failed_turn_step c t Hw Ht). cbn [fst].
    replace (k + Z.of_nat (length (t :: ts)))
      with (Z.succ k + Z.of_nat (length ts)) by (cbn [length]; lia).
    apply IH; cbn; auto; try lia.
    rewrite Hd, Hmax, Z.pow_succ_r by lia. lia.
Qed.

End Backoff.

(** C7: the reconnect delay starts at 1; after N consecutive turns of
    the listen loop in which [connect] fails, the stored delay is
    [min(2^N, 60)] and the client is still disconnected; one successful
    [connect] then resets the delay to 1. *)
Theorem reconnect_delay_backoff (ts : list WebSocketClient.turn) :
  Forall (fun t => WebSocketClient.connect_ok t = false) ts ->
  let c := WebSocketClient.listen_turns WebSocketClient.new_client ts in
  WebSocketClient.reconnect_delay WebSocketClient.new_client = 1 /\
  WebSocketClient.reconnect_delay c = Z.min (2 ^ Z.of_nat (length ts)) 60 /\
  WebSocketClient.websocket c = false /\
  (forall r,
     WebSocketClient.reconnect_delay
       (fst (WebSocketClient.listen_turn c (WebSocketClient.mkTurn true r))) = 1).
Proof.
  intros Hall c.
  destruct (failed_turns_delay ts WebSocketClient.new_client 0) as (Hd & Hw & Hm);
    auto; try reflexivity; try lia.
  fold c in Hd, Hw, Hm. rewrite Z.add_0_l in Hd.
  repeat split; auto.
  intros r. unfold WebSocketClient.listen_turn, WebSocketClient.connect.
  rewrite Hw. cbn. destruct r as [|[]| |]; reflexivity.
Qed.

Lemma reconnect_delay_backoff_witness :
  let ts := List.repeat WebSocketClient.failed_turn 7 in
  let c := WebSocketClient.listen_turns WebSocketClient.new_client ts in
  WebSocketClient.reconnect_delay c = 60 /\
  WebSocketClient.reconnect_delay
    (fst (WebSocketClient.listen_turn c
            (WebSocketClient.mkTurn true WebSocketClient.Message))) = 1.
Proof.
  intros ts c.
  assert (Hall : Forall (fun t => WebSocketClient.connect_ok t = false) ts)
    by (repeat constructor).
  destruct (reconnect_delay_backoff ts Hall) as (_ & Hd & _ & Hr).
  split; [exact Hd | exact (Hr WebSocketClient.Message)].
Defined.

(** ** Publishing *)

(** C10: [post_tweet] never hands more than 280 characters to the X
    API: a text of at most 280 characters is sent unchanged, a longer
    one as its first 277 characters followed by three dots, which is
    exactly 280 characters. *)
Theorem post_tweet_sends_at_most_280
    (create_tweet : str -> res (option dict)) (text : str) :
  let sent := XClient.sent_text (XClient.post_tweet create_tweet text) in
  len sent <= 280 /\
  (len text <= 280 -> sent = text) /\
  (280 < len text -> sent = firstn 277 text ++ lit "..." /\ len sent = 280).
Proof.
  cbn. unfold XClient.outgoing_text, len.
  destruct (280 <? Z.of_nat (length text)) eqn:E.
  - apply Z.ltb_lt in E.
    assert (Hl : length (firstn 277 text ++ lit "...") = 280%nat).
    { rewrite length_app, length_take. cbn [lit length list_ascii_of_string List.map].
      lia. }
    rewrite Hl. repeat split; first [lia | reflexivity].
  - apply Z.ltb_ge in E. repeat split; try lia; auto.
Qed.

Lemma post_tweet_sends_at_most_280_witness :
  let text := List.repeat 120%N 300 in
  let sent := XClient.sent_text (XClient.post_tweet (fun _ => Ok None) text) in
  sent = firstn 277 text ++ lit "..." /\ len sent = 280.
Proof.
  intros text sent.
  exact (proj2 (proj2 (post_tweet_sends_at_most_280 (fun _ => Ok None) text))
           ltac:(vm_compute; reflexivity)).
Defined.

(** ** Currency rendering *)

Section Currency.
Import TweetFormatter.

Lemma decimal_digit d : 0 <= d < 10 -> decimal d = [digit d].
Proof.
  intros Hd. unfold decimal. cbn [digits_fuel].
  destruct (d <? 10) eqn:E; [reflexivity|]. apply Z.ltb_ge in E. lia.
Qed.

(** [round_half_even] rounds to nearest, ties to even. *)
Lemma round_half_even_nearest q :
  0 <= Qnum q -> nearest_even (round_half_even q) q.
Proof.
  destruct q as [a b]. cbn [Qnum]. intros Ha.
  unfold nearest_even, round_half_even, Qle, Qeq. cbn.
  pose proof (Z.div_mod a (Z.pos b) ltac:(lia)) as Hdiv.
  pose proof (Z.mod_pos_bound a (Z.pos b) ltac:(lia)) as Hmod.
  set (fl := a / Z.pos b) in *. set (r := a mod Z.pos b) in *.
  clearbody fl r. change (Z.pos (1 * b)) with (Z.pos b). subst a.
  destruct (2 * r ?= Z.pos b) eqn:E.
  - apply Z.compare_eq in E. destruct (Z.even fl) eqn:Ev.
    + split; [lia|]. split; [lia|]. intros _. exact Ev.
    + split; [lia|]. split; [lia|]. intros _.
      rewrite Z.even_add, Ev. reflexivity.
  - change (2 * r < Z.pos b) in E. split; [lia|]. split; [lia|].
    intros [H|H]; exfalso; lia.
  - apply Z.compare_gt_iff in E. change (Z.pos b < 2 * r) in E.
    split; [lia|]. split; [lia|].
    intros [H|H]; exfalso; lia.
Qed.

Lemma F2Q_abs_nonneg x : 0 <= Qnum (F2Q (SFabs x)).
Proof.
  destruct x as [s|s| |s m e]; cbn; try lia.
  destruct e; cbn; lia.
Qed.

Lemma SFabs_positive x : sign_bit x = false -> SFabs x = x.
Proof. destruct x as [[]|[]| |[] m e]; cbn; congruence. Qed.

(** [f"{x:.Nf}"] of a number: its sign, then the integer nearest to
    [|x| * 10^N], ties to even, written with [N] decimals. *)
Lemma format_fixed_nearest decimals x :
  is_finite x = true ->
  exists n,
    nearest_even n (F2Q (SFabs x) * inject_Z (10 ^ Z.of_nat decimals)) /\
    0 <= n /\
    format_fixed decimals x =
      minus_sign (sign_bit x) ++ decimal (n / 10 ^ Z.of_nat decimals) ++
      match decimals with
      | O => []
      | S _ => lit "." ++ zero_pad decimals (n mod 10 ^ Z.of_nat decimals)
      end.
Proof.
  intros Hfin.
  assert (Hq : 0 <= Qnum (F2Q (SFabs x) * inject_Z (10 ^ Z.of_nat decimals))).
  { cbn [Qnum Qmult inject_Z]. pose proof (F2Q_abs_nonneg x).
    assert (0 <= 10 ^ Z.of_nat decimals) by (apply Z.pow_nonneg; lia). nia. }
  exists (round_half_even
            (F2Q (SFabs x) * inject_Z (10 ^ Z.of_nat decimals))).
  split; [apply round_half_even_nearest, Hq|]. split.
  - unfold round_half_even.
    assert (0 <= Qnum (F2Q (SFabs x) * inject_Z (10 ^ Z.of_nat decimals))
                 / Z.pos (Qden (F2Q (SFabs x) * inject_Z (10 ^ Z.of_nat decimals))))
      by (apply Z.div_pos; lia).
    destruct (_ ?= _); try lia. destruct (Z.even _); lia.
  - destruct x; try discriminate; reflexivity.
Qed.

Lemma float_truediv_const x b :
  b <> 0 -> is_finite (binary_normalize prec emax b 0 false) = true ->
  float_truediv x b = Ok (SFdiv prec emax x (binary_normalize prec emax b 0 false)).
Proof.
  intros Hb Hf. unfold float_truediv, float_of_int.
  destruct (b =? 0) eqn:E; [apply Z.eqb_eq in E; lia|].
  destruct (binary_normalize prec emax b 0 false); try discriminate; reflexivity.
Qed.

Lemma binary_round_aux_sign s m e l :
  sign_bit (binary_round_aux prec emax s m e l) = s \/
  binary_round_aux prec emax s m e l = S754_nan.
Proof.
  unfold binary_round_aux.
  destruct (shr_fexp prec emax m e l) as [mrs' e'].
  destruct (shr_fexp prec emax _ e' loc_Exact) as [mrs'' e''].
  destruct (shr_m mrs'') as [|p|p]; cbn; auto.
  destruct (e'' <=? emax - prec); cbn; auto.
Qed.

(** A float that is at least a positive integer is a positive number or
    plus infinity. *)
Lemma float_ge_int_positive x z :
  0 < z -> float_ge_int x z = true -> sign_bit x = false.
Proof.
  intros Hz. destruct x as [s|s| |s m e]; cbn.
  - rewrite Z.leb_le. lia.
  - destruct s; [discriminate|reflexivity].
  - discriminate.
  - destruct s; [|reflexivity]. intros H. apply Qle_bool_iff in H.
    exfalso. revert H. unfold Qle. destruct e; cbn; lia.
Qed.

(** The quotient of a positive float by a positive integer constant has
    no minus sign. *)
Lemma positive_quotient_sign x b :
  sign_bit x = false ->
  sign_bit (binary_normalize prec emax b 0 false) = false ->
  sign_bit (SFdiv prec emax x (binary_normalize prec emax b 0 false)) = false.
Proof.
  intros Hx Hb.
  destruct x as [s|s| |s m e], (binary_normalize prec emax b 0 false)
    as [s'|s'| |s' m' e']; cbn in Hx, Hb |- *; subst; try reflexivity.
  destruct (SFdiv_core_binary prec emax (Z.pos m) e (Z.pos m') e')
    as [[mz ez] lz].
  destruct (binary_round_aux_sign (xorb false false) mz ez lz) as [H| ->];
    [exact H|reflexivity].
Qed.

End Currency.

(** C4 as the claim states it fails at 1,250,000: the quotient 1.25 is a
    tie, which the formatting rounds to the even digit. *)
Lemma format_currency_1250000_is_not_1_3M :
  TweetFormatter.format_currency (float_lit 1250000) <> Ok (lit "$1.3M").
Proof. vm_compute. discriminate. Qed.

(** C4 (amended): for an amount of at least 1,000,000 [format_currency]
    divides by 1,000,000 and renders '$', the quotient with one decimal
    and 'M'; for an amount of at least 1,000 it divides by 1,000 and
    renders '$', the quotient with no decimal and 'K'; a smaller amount
    is rendered as '$' and the amount with no decimal.  The digits are
    those of the integer nearest to the quotient times 10 (or to the
    quotient, or to the amount), the even one on a tie: 1,250,000 is
    "$1.2M" and 1,750,000 is "$1.8M", 2,500 is "$2K" and 3,500 is "$4K",
    125,000 is "$125K" and 999,999 is "$1000K". *)
Theorem format_currency_rendering (amount : float) :
  (float_ge_int amount 1000000 = true ->
     exists x,
       float_truediv amount 1000000 = Ok x /\
       (is_finite x = true ->
          exists n,
            nearest_even n (F2Q x * inject_Z 10) /\
            TweetFormatter.format_currency amount
              = Ok (lit "$" ++ decimal (n / 10) ++ lit "." ++ [digit (n mod 10)]
                    ++ lit "M"))) /\
  (float_ge_int amount 1000000 = false -> float_ge_int amount 1000 = true ->
     exists x,
       float_truediv amount 1000 = Ok x /\
       (is_finite x = true ->
          exists n,
            nearest_even n (F2Q x) /\
            TweetFormatter.format_currency amount
              = Ok (lit "$" ++ decimal n ++ lit "K"))) /\
  (float_ge_int amount 1000000 = false -> float_ge_int amount 1000 = false ->
     is_finite amount = true ->
     exists n,
       nearest_even n (F2Q (SFabs amount)) /\
       TweetFormatter.format_currency amount
         = Ok (lit "$" ++ minus_sign (sign_bit amount) ++ decimal n)) /\
  TweetFormatter.format_currency (float_lit 1250000) = Ok (lit "$1.2M") /\
  TweetFormatter.format_currency (float_lit 1750000) = Ok (lit "$1.8M") /\
  TweetFormatter.format_currency (float_lit 2500) = Ok (lit "$2K") /\
  TweetFormatter.format_currency (float_lit 3500) = Ok (lit "$4K") /\
  TweetFormatter.format_currency (float_lit 125000) = Ok (lit "$125K") /\
  TweetFormatter.format_currency (float_lit 999999) = Ok (lit "$1000K").
Proof.
  unfold TweetFormatter.format_currency.
  split; [|split; [|split; [|repeat split; vm_compute; reflexivity]]].
  - intros Hge. rewrite Hge.
    rewrite float_truediv_const by (vm_compute; congruence).
    eexists. split; [reflexivity|]. intros Hfin.
    pose proof (positive_quotient_sign amount 1000000
                  (float_ge_int_positive amount 1000000 ltac:(lia) Hge)
                  eq_refl) as Hs.
    destruct (format_fixed_nearest 1 _ Hfin) as (n & Hn & Hpos & E).
    rewrite (SFabs_positive _ Hs) in Hn. rewrite Hs in E.
    change (10 ^ Z.of_nat 1) with 10 in Hn, E.
    exists n. split; [exact Hn|]. cbv [mbind res_bind]. rewrite E.
    unfold zero_pad.
    rewrite (decimal_digit (n mod 10)) by (apply Z.mod_pos_bound; lia).
    cbn [minus_sign length Nat.sub List.repeat app].
    rewrite <- !app_assoc. reflexivity.
  - intros Hlt Hge. rewrite Hlt, Hge.
    rewrite float_truediv_const by (vm_compute; congruence).
    eexists. split; [reflexivity|]. intros Hfin.
    pose proof (positive_quotient_sign amount 1000
                  (float_ge_int_positive amount 1000 ltac:(lia) Hge)
                  eq_refl) as Hs.
    destruct (format_fixed_nearest 0 _ Hfin) as (n & Hn & Hpos & E).
    rewrite (SFabs_positive _ Hs) in Hn. rewrite Hs in E.
    change (10 ^ Z.of_nat 0) with 1 in Hn, E.
    rewrite Z.div_1_r in E.
    exists n. split.
    + destruct Hn as (H1 & H2 & H3). unfold nearest_even.
      assert (Hq : (F2Q (SFdiv prec emax amount
                           (binary_normalize prec emax 1000 0 false))
                    * inject_Z 1 ==
                    F2Q (SFdiv prec emax amount
                           (binary_normalize prec emax 1000 0 false)))%Q)
        by apply Qmult_1_r.
      rewrite Hq in H1, H2, H3. auto.
    + cbv [mbind res_bind]. rewrite E.
      cbn [minus_sign app]. rewrite app_nil_r. reflexivity.
  - intros Hlt1 Hlt2 Hfin. rewrite Hlt1, Hlt2.
    destruct (format_fixed_nearest 0 _ Hfin) as (n & Hn & Hpos & E).
    change (10 ^ Z.of_nat 0) with 1 in Hn, E.
    rewrite Z.div_1_r in E.
    exists n. split.
    + destruct Hn as (H1 & H2 & H3). unfold nearest_even.
      assert (Hq : (F2Q (SFabs amount) * inject_Z 1 == F2Q (SFabs amount))%Q)
        by apply Qmult_1_r.
      rewrite Hq in H1, H2, H3. auto.
    + rewrite E, app_nil_r. reflexivity.
Qed.

Lemma format_currency_rendering_witness :
  exists x n,
    float_truediv (float_lit 1250000) 1000000 = Ok x /\
    (F2Q x == 5 # 4)%Q /\
    nearest_even n (F2Q x * inject_Z 10) /\
    TweetFormatter.format_currency (float_lit 1250000)
      = Ok (lit "$" ++ decimal (n / 10) ++ lit "." ++ [digit (n mod 10)]
            ++ lit "M").
Proof.
  destruct (proj1 (format_currency_rendering (float_lit 1250000))
              ltac:(vm_compute; reflexivity)) as (x & Hx & Hf).
  assert (Ex : x = S754_finite false 5629499534213120 (-52)).
  { revert Hx. vm_compute. congruence. }
  destruct (Hf ltac:(rewrite Ex; reflexivity)) as (n & Hn & Hfmt).
  exists x, n. split; [exact Hx|]. split; [|split; [exact Hn|exact Hfmt]].
  rewrite Ex. vm_compute. reflexivity.
Defined.

(** ** REST wrappers *)

(** C8 as the claim states it fails for a successful request whose body
    is the empty object: the key is absent, yet [get_trades] and
    [get_markets] return [None], not the empty list. *)
Lemma get_trades_empty_object_is_none :
  let o := KalshiClient.Response 200 (Some ∅) in
  KalshiClient.make_request o = Some ∅ /\
  KalshiClient.get_trades o <> Some (KalshiClient.JList []) /\
  KalshiClient.get_markets o <> Some (KalshiClient.JList []).
Proof. cbn. repeat split; discriminate. Qed.

(** C8 (amended): when the request fails ([_make_request] returns
    [None]: transport exception, status other than 200, or no body),
    [get_markets], [get_market], [get_trades] and [get_orderbook] all
    return [None]; when it returns a non-empty object, [get_markets] and
    [get_trades] return the value under 'markets' and 'trades', the
    empty list when the key is absent; an empty object is treated as a
    failure and yields [None]. *)
Theorem rest_wrappers_none_on_failure (o : KalshiClient.http_outcome) :
  (KalshiClient.make_request o = None ->
     KalshiClient.get_markets o = None /\
     KalshiClient.get_market o = None /\
     KalshiClient.get_trades o = None /\
     KalshiClient.get_orderbook o = None) /\
  ((forall status parsed, o = KalshiClient.Response status parsed ->
      status <> 200) ->
     KalshiClient.make_request o = None) /\
  (forall result,
     KalshiClient.make_request o = Some result -> result <> ∅ ->
     KalshiClient.get_markets o
       = Some (default (KalshiClient.JList []) (result !! "markets")) /\
     KalshiClient.get_trades o
       = Some (default (KalshiClient.JList []) (result !! "trades")) /\
     KalshiClient.get_orderbook o = Some result) /\
  (KalshiClient.make_request o = Some ∅ ->
     KalshiClient.get_markets o = None /\
     KalshiClient.get_market o = None /\
     KalshiClient.get_trades o = None /\
     KalshiClient.get_orderbook o = None).
Proof.
  unfold KalshiClient.get_markets, KalshiClient.get_market,
    KalshiClient.get_trades, KalshiClient.get_orderbook,
    KalshiClient.body_get, KalshiClient.body_truthy.
  split; [|split; [|split]].
  - intros H. rewrite H. auto.
  - intros H. destruct o as [|status parsed]; [reflexivity|]. cbn.
    destruct (status =? 200) eqn:E; [|reflexivity].
    apply Z.eqb_eq in E. exfalso. exact (H status parsed eq_refl E).
  - intros result H Hne.
    rewrite H, bool_decide_eq_false_2 by assumption. auto.
  - intros H. rewrite H. auto.
Qed.

Lemma rest_wrappers_none_on_failure_witness :
  KalshiClient.get_trades (KalshiClient.Response 503 None) = None /\
  KalshiClient.get_trades KalshiClient.TransportError = None /\
  KalshiClient.get_trades
    (KalshiClient.Response 200 (Some (<["cursor" := KalshiClient.JScalar (PStr [])]> ∅)))
    = Some (KalshiClient.JList []).
Proof.
  split; [|split].
  - exact (proj1 (proj2 (proj2 (proj1
      (rest_wrappers_none_on_failure (KalshiClient.Response 503 None))
      eq_refl)))).
  - exact (proj1 (proj2 (proj2 (proj1
      (rest_wrappers_none_on_failure KalshiClient.TransportError) eq_refl)))).
  - destruct (rest_wrappers_none_on_failure
                (KalshiClient.Response 200
                   (Some (<["cursor" := KalshiClient.JScalar (PStr [])]> ∅))))
      as (_ & _ & H & _).
    exact (proj1 (proj2 (H _ eq_refl (insert_non_empty _ _ _)))).
Defined.

(** ** Tweet length *)

Section Replace.

Lemma starts_with_length old s :
  starts_with old s = true -> (length old <= length s)%nat.
Proof.
  revert s. induction old as [|a old IH]; intros [|b s]; cbn; try lia.
  intros H. apply andb_true_iff in H as [_ H]. apply IH in H. lia.
Qed.

Lemma starts_with_app old rest : starts_with old (old ++ rest) = true.
Proof.
  induction old as [|a old IH]; cbn; [reflexivity|].
  rewrite N.eqb_refl. exact IH.
Qed.

Lemma replace_nonempty s old new :
  old <> [] -> replace s old new = replace_scan old new 0 s.
Proof. destruct old; [congruence|reflexivity]. Qed.

Variables old new : str.
Hypothesis old_nonempty : old <> [].
Hypothesis new_shorter : (length new <= length old)%nat.

(** A replacement that does not lengthen the pattern does not lengthen
    the text, and the part skipped is dropped. *)
Lemma replace_scan_length s : forall skip,
  (length (replace_scan old new skip s) + Nat.min skip (length s)
   <= length s)%nat.
Proof.
  induction s as [|c s IH]; intros skip; cbn [replace_scan length].
  - lia.
  - destruct skip as [|k].
    + destruct (starts_with old (c :: s)) eqn:E.
      * apply starts_with_length in E. cbn [length] in E.
        rewrite length_app. specialize (IH (length old - 1)%nat). lia.
      * cbn [length]. specialize (IH 0%nat). lia.
    + specialize (IH k). lia.
Qed.

(** Each occurrence replaced shortens the text by the difference of the
    lengths; there is at least one where the pattern occurs. *)
Lemma replace_scan_occurrence before after :
  (length (replace_scan old new 0 (before ++ old ++ after))
   + (length old - length new)
   <= length (before ++ old ++ after))%nat.
Proof.
  assert (Hfound : forall c s,
            starts_with old (c :: s) = true ->
            (length (replace_scan old new 0 (c :: s))
             + (length old - length new) <= length (c :: s))%nat).
  { intros c s E. cbn [replace_scan]. rewrite E.
    apply starts_with_length in E. cbn [length] in E |- *.
    rewrite length_app.
    pose proof (replace_scan_length s (length old - 1)). lia. }
  induction before as [|c before IH].
  - cbn [app]. destruct (old ++ after) as [|c s] eqn:E.
    + apply app_eq_nil in E as [E _]. congruence.
    + apply Hfound. rewrite <- E. apply starts_with_app.
  - cbn [app]. destruct (starts_with old (c :: before ++ old ++ after)) eqn:E.
    + apply Hfound. exact E.
    + cbn [replace_scan]. rewrite E. cbn [length]. lia.
Qed.

Lemma replace_occurrence before after :
  (length (replace (before ++ old ++ after) old new)
   + (length old - length new)
   <= length (before ++ old ++ after))%nat.
Proof.
  rewrite replace_nonempty by exact old_nonempty.
  apply replace_scan_occurrence.
Qed.

End Replace.

Section TweetLength.
Import TweetFormatter.

Lemma len_app (s1 s2 : str) : len (s1 ++ s2) = len s1 + len s2.
Proof. unfold len. rewrite length_app. lia. Qed.

Lemma len_cons (c : N) (s : str) : len (c :: s) = 1 + len s.
Proof. unfold len. cbn [length]. lia. Qed.

Lemma full_parts_length value title contracts side_up price pct url :
  len (join newline (full_parts value title contracts side_up price pct url))
  = 71 + len value + len title + len contracts + len side_up + len price
    + len pct + len url.
Proof.
  unfold full_parts, newline. cbn [join].
  rewrite ?len_app, ?len_cons, ?len_app, ?len_cons, ?len_app.
  repeat rewrite ?len_app, ?len_cons.
  unfold len. cbn [lit list_ascii_of_string List.map length]. lia.
Qed.

Lemma compact_parts_length value contracts side_up price url :
  len (join newline (compact_parts value contracts side_up price url))
  = 50 + len value + len contracts + len side_up + len price + len url.
Proof.
  unfold compact_parts, newline. cbn [join].
  repeat rewrite ?len_app, ?len_cons.
  unfold len. cbn [lit list_ascii_of_string List.map length]. lia.
Qed.

Lemma get_market_url_length ticker :
  len (get_market_url ticker) = 27 + len (format_val ticker).
Proof.
  unfold get_market_url. rewrite len_app.
  unfold len. cbn [lit list_ascii_of_string List.map length]. lia.
Qed.

(** The full rendering carries the title. *)
Lemma full_parts_title value title contracts side_up price pct url :
  exists before after,
    join newline (full_parts value title contracts side_up price pct url)
    = before ++ title ++ after.
Proof.
  unfold full_parts. cbn [join].
  eexists ((whale_emoji :: lit " Whale Alert!") ++ newline ++ [] ++ newline
           ++ value ++ lit " trade on "), _.
  rewrite <- !app_assoc. reflexivity.
Qed.

End TweetLength.

(** C5 as the claim states it fails: a title of 5 characters and a
    ticker of 50, yet the compact rendering of a trade with a huge
    contract count has more than 280 characters. *)
Lemma format_whale_tweet_exceeds_280 :
  exists t tweet,
    Trade_init huge_count_trade = Ok t /\
    get short_title_market "title" PNone = PStr (lit "Rates") /\
    len (format_val (ticker t)) = 50 /\
    TweetFormatter.format_whale_tweet ascii_upper t short_title_market = Ok tweet /\
    280 < len tweet.
Proof.
  destruct (Trade_init huge_count_trade) as [t|e] eqn:Et;
    [|vm_compute in Et; discriminate].
  destruct (TweetFormatter.format_whale_tweet ascii_upper t short_title_market)
    as [tweet|e] eqn:Ef.
  - exists t, tweet. split; [reflexivity|].
    vm_compute in Et. injection Et as <-.
    vm_compute in Ef. injection Ef as <-.
    repeat split; vm_compute; reflexivity.
  - exfalso. vm_compute in Et. injection Et as <-.
    vm_compute in Ef. discriminate.
Qed.

(** C5 (amended): when [format_whale_tweet] returns, the result is the
    full rendering if that has at most 280 characters; otherwise, if the
    title can be cut to more than 20 characters, it is the full
    rendering with the title replaced by its truncation and three dots,
    of at most 280 characters; otherwise it is the compact rendering,
    returned as it is, whose length is 77 plus the lengths of the
    value, the contract count, the side, the price and the ticker.  The
    result has at most 280 characters whenever the compact rendering
    has, whatever the title. *)
Theorem format_whale_tweet_length
    (upper : str -> str) (trade : Trade) (market : dict) (tweet : str) :
  TweetFormatter.format_whale_tweet upper trade market = Ok tweet ->
  exists value contracts side_up price_pct,
    TweetFormatter.format_currency (value_dollars trade) = Ok value /\
    TweetFormatter.val_commas (count trade) = Ok contracts /\
    TweetFormatter.val_upper upper (side trade) = Ok side_up /\
    let title := get market "title" (PStr (lit "Unknown Market")) in
    let price_cents :=
      if bool_decide (side trade = PStr (lit "yes"))
      then yes_price trade else no_price trade in
    let url := TweetFormatter.get_market_url (ticker trade) in
    let full :=
      join TweetFormatter.newline
        (TweetFormatter.full_parts value (format_val title) contracts side_up
           (format_val price_cents) (format_fixed 0 price_pct) url) in
    let compact :=
      join TweetFormatter.newline
        (TweetFormatter.compact_parts value contracts side_up
           (format_val price_cents) url) in
    truediv price_cents 100 = Ok price_pct /\
    (len full <= 280 -> tweet = full) /\
    (280 < len full ->
       exists s, title = PStr s /\
         let max_title_len := len s - (len full - 280) - 3 in
         (20 < max_title_len ->
            tweet = replace full s
                      (firstn (Z.to_nat max_title_len) s ++ lit "...") /\
            len tweet <= 280) /\
         (max_title_len <= 20 -> tweet = compact)) /\
    len compact = 77 + len value + len contracts + len side_up
                  + len (format_val price_cents)
                  + len (format_val (ticker trade)) /\
    (len compact <= 280 -> len tweet <= 280).
Proof.
  unfold TweetFormatter.format_whale_tweet.
  destruct (TweetFormatter.val_upper upper (side trade)) as [side_up|] eqn:Es;
    [|discriminate].
  destruct (TweetFormatter.format_currency (value_dollars trade))
    as [value|] eqn:Ev; [|discriminate].
  destruct (TweetFormatter.val_commas (count trade)) as [contracts|] eqn:Ec;
    [|discriminate].
  cbv [mbind res_bind].
  set (title := get market "title" (PStr (lit "Unknown Market"))).
  set (price_cents := if bool_decide _ then _ else _).
  destruct (truediv price_cents 100) as [price_pct|] eqn:Ep; [|discriminate].
  set (url := TweetFormatter.get_market_url (ticker trade)).
  set (full := join TweetFormatter.newline (TweetFormatter.full_parts _ _ _ _ _ _ _)).
  set (compact := join TweetFormatter.newline (TweetFormatter.compact_parts _ _ _ _ _)).
  intros H.
  exists value, contracts, side_up, price_pct.
  split; [reflexivity|]. split; [reflexivity|]. split; [reflexivity|].
  cbv zeta. fold title price_cents url full compact.
  split; [reflexivity|].
  assert (Hcompact : len compact = 77 + len value + len contracts + len side_up
                       + len (format_val price_cents)
                       + len (format_val (ticker trade))).
  { unfold compact. rewrite compact_parts_length. unfold url.
    rewrite get_market_url_length. lia. }
  destruct (full_parts_title value (format_val title) contracts side_up
              (format_val price_cents) (format_fixed 0 price_pct) url)
    as (before & after & Efull).
  fold full in Efull. clearbody full compact url price_cents title.
  destruct (280 <? len full) eqn:Elen.
  - apply Z.ltb_lt in Elen.
    destruct title as [|z|s]; try discriminate.
    cbn [TweetFormatter.val_len] in H.
    set (max_title_len := len s - (len full - 280) - 3) in *.
    assert (Hbranch :
      (20 < max_title_len ->
         tweet = replace full s (firstn (Z.to_nat max_title_len) s ++ lit "...") /\
         len tweet <= 280) /\
      (max_title_len <= 20 -> tweet = compact)).
    { destruct (20 <? max_title_len) eqn:Emax.
      - apply Z.ltb_lt in Emax. injection H as <-.
        split; [|lia]. intros _. split; [reflexivity|].
        cbn [format_val] in Efull |- *. rewrite Efull.
        assert (Hold : s <> []).
        { intros ->. unfold max_title_len in Emax.
          change (len []) with 0 in Emax. lia. }
        assert (Hcut : length (firstn (Z.to_nat max_title_len) s ++ lit "...")
                       = (Z.to_nat max_title_len + 3)%nat).
        { rewrite length_app, length_take.
          cbn [lit list_ascii_of_string List.map length].
          unfold max_title_len, len in *. lia. }
        assert (Hnew : (length (firstn (Z.to_nat max_title_len) s ++ lit "...")
                        <= length s)%nat).
        { rewrite Hcut. unfold max_title_len, len in *. lia. }
        pose proof (replace_occurrence s _ Hold Hnew before after) as Hr.
        rewrite <- Efull, Hcut in Hr.
        rewrite <- Efull. unfold max_title_len, len in *. lia.
      - apply Z.ltb_ge in Emax. injection H as <-.
        split; [lia|]. intros _. reflexivity. }
    split; [lia|]. split; [|split; [exact Hcompact|]].
    + intros _. exists s. split; [reflexivity|]. exact Hbranch.
    + intros Hc. destruct Hbranch as [Hb1 Hb2].
      destruct (Z.lt_ge_cases 20 max_title_len) as [Hlt|Hge].
      * apply Hb1. exact Hlt.
      * rewrite (Hb2 Hge). exact Hc.
  - apply Z.ltb_ge in Elen. injection H as <-.
    split; [reflexivity|]. split; [lia|]. split; [exact Hcompact|]. lia.
Qed.

Lemma format_whale_tweet_length_witness :
  exists t tweet,
    Trade_init whale_trade = Ok t /\
    TweetFormatter.format_whale_tweet ascii_upper t long_title_market = Ok tweet /\
    len tweet <= 280.
Proof.
  destruct (Trade_init whale_trade) as [t|e] eqn:Et;
    [|vm_compute in Et; discriminate].
  destruct (TweetFormatter.format_whale_tweet ascii_upper t long_title_market)
    as [tweet|e] eqn:Ef.
  - exists t, tweet. split; [reflexivity|]. split; [exact Ef|].
    pose proof (format_whale_tweet_length ascii_upper t long_title_market tweet Ef)
      as H.
    cbv zeta in H.
    destruct H as (value & contracts & side_up & pct & Ev & Ec & Es & _ & _ & _
                   & _ & Hfit).
    apply Hfit. clear Hfit Ef.
    vm_compute in Et. injection Et as <-.
    vm_compute in Ev. injection Ev as <-.
    vm_compute in Ec. injection Ec as <-.
    vm_compute in Es. injection Es as <-.
    vm_compute. discriminate.
  - exfalso. vm_compute in Et. injection Et as <-.
    vm_compute in Ef. discriminate.
Defined.

(** The alert for the $112,500 whale on a market with a title of 300
    characters is cut to exactly 280 characters. *)
Example long_title_is_cut_to_280 :
  exists t tweet,
    Trade_init whale_trade = Ok t /\
    TweetFormatter.format_whale_tweet ascii_upper t long_title_market = Ok tweet /\
    len tweet = 280.
Proof.
  eexists _, _. split; [vm_compute; reflexivity|].
  split; vm_compute; reflexivity.
Qed.

(** ** The seen set *)

Lemma elem_of_set_add (x y : pyval) (s : gset pyval) :
  x ∈ set_add y s <-> x = y \/ x ∈ s.
Proof.
  unfold set_add, elem_of, gset_elem_of, mapset_elem_of. cbn.
  destruct (decide (x = y)) as [->|Hne].
  - rewrite lookup_insert_eq. tauto.
  - rewrite lookup_insert_ne by congruence. tauto.
Qed.

Lemma set_add_union (x : pyval) (s : gset pyval) : set_add x s = {[ x ]} ∪ s.
Proof.
  apply set_eq. intros y. rewrite elem_of_set_add. set_solver.
Qed.

Lemma set_of_list_eq (l : list pyval) : set_of_list l = list_to_set l.
Proof.
  induction l as [|x l IH]; [reflexivity|].
  cbn. fold (set_of_list l). rewrite IH. apply set_add_union.
Qed.

Lemma set_len_add (x : pyval) (s : gset pyval) :
  Monitor.set_len (set_add x s)
  = if bool_decide (x ∈ s) then Monitor.set_len s else Monitor.set_len s + 1.
Proof.
  unfold Monitor.set_len. rewrite set_add_union.
  destruct (bool_decide (x ∈ s)) eqn:E.
  - apply bool_decide_eq_true in E.
    assert ({[x]} ∪ s = s) as -> by set_solver. reflexivity.
  - apply bool_decide_eq_false in E.
    rewrite size_union by set_solver. rewrite size_singleton. lia.
Qed.

Section Compaction.
Variable order : gset pyval -> list pyval.

Lemma compact_small (s : gset pyval) :
  Monitor.set_len s <= 10000 -> Monitor.compact order s = s.
Proof.
  intros H. unfold Monitor.compact.
  destruct (10000 <? Monitor.set_len s) eqn:E; [|reflexivity].
  apply Z.ltb_lt in E. lia.
Qed.

Hypothesis order_valid : valid_order order.

Lemma compact_subseteq (s : gset pyval) : Monitor.compact order s ⊆ s.
Proof.
  unfold Monitor.compact. destruct (10000 <? _); [|reflexivity].
  rewrite set_of_list_eq. intros x Hx.
  apply elem_of_list_to_set in Hx. unfold Monitor.last_n in Hx.
  apply subseteq_drop in Hx. rewrite (order_valid s) in Hx.
  apply elem_of_elements in Hx. exact Hx.
Qed.

Lemma compact_size (s : gset pyval) :
  10000 < Monitor.set_len s -> Monitor.set_len (Monitor.compact order s) = 5000.
Proof.
  intros H. unfold Monitor.compact.
  destruct (10000 <? Monitor.set_len s) eqn:E;
    [|apply Z.ltb_ge in E; lia].
  unfold Monitor.set_len in *. rewrite set_of_list_eq.
  assert (Hnd : NoDup (order s))
    by (rewrite (order_valid s); apply NoDup_elements).
  assert (Hlen : length (order s) = size s)
    by (rewrite (order_valid s); reflexivity).
  rewrite size_list_to_set.
  - unfold Monitor.last_n. rewrite length_drop. lia.
  - unfold Monitor.last_n. eapply sublist_NoDup; [exact Hnd|apply sublist_drop].
Qed.

Lemma compact_bound (s : gset pyval) :
  Monitor.set_len (Monitor.compact order s) <= 10000.
Proof.
  destruct (Z.le_gt_cases (Monitor.set_len s) 10000) as [H|H].
  - rewrite compact_small; assumption.
  - rewrite compact_size; lia.
Qed.

End Compaction.

(** ** De-duplication in the polling monitor *)

Lemma get_market_details_state st ticker fetched :
  Monitor.seen_trade_ids (fst (Monitor.get_market_details st ticker fetched))
    = Monitor.seen_trade_ids st /\
  Monitor.threshold_dollars (fst (Monitor.get_market_details st ticker fetched))
    = Monitor.threshold_dollars st.
Proof.
  unfold Monitor.get_market_details. cbn.
  destruct (Monitor.market_cache st !! ticker); [auto|].
  destruct fetched as [market|]; [|auto].
  destruct (bool_decide (market = ∅)); auto.
Qed.

(** One turn of the loop: the trade id is in the seen set afterwards,
    and the trade is reported at most once, only if its id was new. *)
Lemma whale_loop_step markets i trade rest st acc :
  exists st1 add,
    Monitor.whale_loop markets i (trade :: rest) st acc
      = Monitor.whale_loop markets (S i) rest st1 (acc ++ add) /\
    Monitor.threshold_dollars st1 = Monitor.threshold_dollars st /\
    Monitor.seen_trade_ids st1 = {[ trade_id trade ]} ∪ Monitor.seen_trade_ids st /\
    (add = [] \/
     exists m, add = [(trade, m)] /\
       trade_id trade ∉ Monitor.seen_trade_ids st /\
       is_whale trade (Monitor.threshold_dollars st) = true).
Proof.
  cbn [Monitor.whale_loop].
  destruct (bool_decide (trade_id trade ∈ Monitor.seen_trade_ids st)) eqn:Eseen.
  - apply bool_decide_eq_true in Eseen.
    exists st, []. rewrite app_nil_r.
    repeat split; auto. set_solver.
  - apply bool_decide_eq_false in Eseen.
    set (st1 := Monitor.mkMonitor _ _ _).
    assert (Hs1 : Monitor.seen_trade_ids st1
                  = {[ trade_id trade ]} ∪ Monitor.seen_trade_ids st)
      by apply set_add_union.
    destruct (is_whale trade (Monitor.threshold_dollars st1)) eqn:Ew.
    + pose proof (get_market_details_state st1 (ticker trade) (markets i))
        as [Hseen Hth].
      destruct (Monitor.get_market_details st1 (ticker trade) (markets i))
        as [st2 md]. cbn [fst] in Hseen, Hth.
      destruct md as [m|].
      * destruct (bool_decide (m = ∅)).
        -- exists st2, []. rewrite app_nil_r. rewrite Hseen, Hth. auto.
        -- exists st2, [(trade, m)]. rewrite Hseen, Hth.
           repeat split; auto. right. exists m. auto.
      * exists st2, []. rewrite app_nil_r. rewrite Hseen, Hth. auto.
    + exists st1, []. rewrite app_nil_r. auto.
Qed.

Lemma whale_loop_spec markets trades : forall i st acc st' out,
  Monitor.whale_loop markets i trades st acc = (st', out) ->
  Monitor.threshold_dollars st' = Monitor.threshold_dollars st /\
  Monitor.seen_trade_ids st'
    = list_to_set (List.map trade_id trades) ∪ Monitor.seen_trade_ids st /\
  exists new,
    out = acc ++ new /\
    (forall w m, (w, m) ∈ new ->
       w ∈ trades /\ trade_id w ∉ Monitor.seen_trade_ids st /\
       is_whale w (Monitor.threshold_dollars st) = true) /\
    NoDup (List.map (fun x => trade_id (fst x)) new).
Proof.
  induction trades as [|trade rest IH]; intros i st acc st' out H.
  - cbn in H. injection H as <- <-. split; [reflexivity|].
    split; [set_solver|]. exists []. rewrite app_nil_r.
    split; [reflexivity|]. split; [set_solver|constructor].
  - destruct (whale_loop_step markets i trade rest st acc)
      as (st1 & add & Estep & Hth & Hseen & Hadd).
    rewrite Estep in H.
    destruct (IH _ _ _ _ _ H) as (Hth' & Hseen' & new & -> & Hmem & Hnd).
    split; [congruence|]. split.
    { rewrite Hseen', Hseen. cbn [List.map list_to_set]. set_solver. }
    exists (add ++ new). split; [rewrite app_assoc; reflexivity|].
    assert (Hnew : forall w m, (w, m) ∈ new ->
              w ∈ trade :: rest /\ trade_id w ∉ Monitor.seen_trade_ids st /\
              trade_id w <> trade_id trade /\
              is_whale w (Monitor.threshold_dollars st) = true).
    { intros w m Hin. destruct (Hmem w m Hin) as (Hw & Hns & Hwh).
      rewrite Hseen in Hns. rewrite Hth in Hwh.
      repeat split; [set_solver|set_solver|set_solver|exact Hwh]. }
    destruct Hadd as [->|(m0 & -> & Hfresh & Hwhale)].
    + cbn [app]. split; [|exact Hnd].
      intros w m Hin. destruct (Hnew w m Hin) as (? & ? & ? & ?). auto.
    + cbn [app List.map fst]. split.
      * intros w m Hin. apply elem_of_cons in Hin as [[= -> ->]|Hin].
        -- repeat split; [set_solver|exact Hfresh|exact Hwhale].
        -- destruct (Hnew w m Hin) as (? & ? & ? & ?). auto.
      * apply NoDup_cons. split; [|exact Hnd].
        intros Hin. apply list_elem_of_fmap in Hin as ([w m] & Eid & Hin).
        destruct (Hnew w m Hin) as (_ & _ & Hne & _). cbn in Eid. congruence.
Qed.

Lemma size_list_to_set_union (l : list pyval) (s : gset pyval) :
  (size (list_to_set l ∪ s) <= length l + size s)%nat.
Proof.
  induction l as [|x l IH]; cbn [list_to_set length].
  - assert ((∅ : gset pyval) ∪ s = s) as -> by set_solver. lia.
  - assert ({[x]} ∪ list_to_set l ∪ s = {[x]} ∪ (list_to_set l ∪ s)) as ->
      by set_solver.
    rewrite size_union_alt, size_singleton.
    pose proof (subseteq_size ((list_to_set l ∪ s) ∖ {[x]}) (list_to_set l ∪ s)
                  ltac:(set_solver)).
    lia.
Qed.

Lemma find_new_whale_trades_inv order st trades_data markets st' whales :
  Monitor.find_new_whale_trades order st trades_data markets = Ok (st', whales) ->
  exists trades st1,
    Monitor.fetch_recent_trades trades_data = Ok trades /\
    Monitor.whale_loop markets 0 trades st [] = (st1, whales) /\
    Monitor.seen_trade_ids st'
      = Monitor.compact order (Monitor.seen_trade_ids st1).
Proof.
  unfold Monitor.find_new_whale_trades.
  destruct (Monitor.fetch_recent_trades trades_data) as [trades|] eqn:Ef;
    [|discriminate].
  cbv [mbind res_bind].
  destruct (Monitor.whale_loop markets 0 trades st []) as [st1 out] eqn:El.
  intros [= <- <-]. exists trades, st1.
  split; [reflexivity|]. split; [exact El|reflexivity].
Qed.

Lemma valid_ascending_order : valid_order ascending_order.
Proof. intros s. unfold ascending_order. apply merge_sort_Permutation. Qed.

(** C3 as the claim states it fails once the memory guard has run: in
    this session the whale with trade id 0 is fetched in cycle 101,
    where the seen set reaches 10,001 ids and is cut to the 5,000
    largest, and again in cycle 102; it is reported in both cycles. *)
Lemma refetched_whale_is_reported_twice :
  drop 100
    (List.map (List.map (fun x => trade_id (fst x)))
       (snd (Monitor.poll_session ascending_order (Monitor.new_monitor 100000)
               refetch_session)))
  = [[PInt 0]; [PInt 0]].
Proof. vm_compute. reflexivity. Qed.

(** ** De-duplication in the streaming bot *)

Section StreamingFacts.
Variable upper : str -> str.
Variable order : gset pyval -> list pyval.
Variable threshold : Z.
Variable create_tweet : str -> res (option dict).

Lemma bot_get_market_details_seen st ticker fetched :
  Bot.seen_trade_ids (fst (Bot.get_market_details st ticker fetched))
  = Bot.seen_trade_ids st.
Proof.
  unfold Bot.get_market_details. cbn.
  destruct (Bot.market_cache st !! ticker); [auto|].
  destruct fetched as [market|]; [|auto].
  destruct (bool_decide (market = ∅)); auto.
Qed.

Lemma post_whale_trade_at_most_one trade market :
  (length (Bot.post_whale_trade upper create_tweet trade market) <= 1)%nat.
Proof.
  unfold Bot.post_whale_trade.
  destruct (TweetFormatter.format_whale_tweet upper trade market); cbn; lia.
Qed.

(** A trade whose id is in the seen set is dropped at once. *)
Lemma handle_trade_seen st data fetched :
  get data "trade_id" (PStr []) ∈ Bot.seen_trade_ids st ->
  Bot.handle_trade upper order threshold create_tweet st data fetched = (st, []).
Proof.
  intros H. unfold Bot.handle_trade.
  rewrite bool_decide_eq_true_2 by exact H. reflexivity.
Qed.

(** What a call on a new id leaves: the id added, then either nothing
    more (an exception was logged) or the memory guard applied. *)
Lemma handle_trade_new st data fetched st' sent :
  get data "trade_id" (PStr []) ∉ Bot.seen_trade_ids st ->
  Bot.handle_trade upper order threshold create_tweet st data fetched = (st', sent) ->
  let added := set_add (get data "trade_id" (PStr [])) (Bot.seen_trade_ids st) in
  (length sent <= 1)%nat /\
  (Bot.seen_trade_ids st' = added \/
   Bot.seen_trade_ids st' = Monitor.compact order added) /\
  ((exists e, Trade_init data = Raise e) ->
     Bot.seen_trade_ids st' = added /\ sent = []).
Proof.
  intros Hnew. unfold Bot.handle_trade.
  rewrite bool_decide_eq_false_2 by exact Hnew.
  set (id := get data "trade_id" (PStr [])).
  destruct (Trade_init data) as [trade|e] eqn:Et.
  - destruct (TweetFormatter.val_upper upper (side trade)) as [up|e'].
    + destruct (is_whale trade threshold).
      * pose proof (bot_get_market_details_seen
                      (Bot.mkBot (set_add id (Bot.seen_trade_ids st))
                         (Bot.market_cache st)) (ticker trade) fetched) as Hs.
        destruct (Bot.get_market_details _ (ticker trade) fetched) as [st2 md].
        cbn [fst Bot.seen_trade_ids] in Hs.
        destruct md as [m|]; [destruct (bool_decide (m = ∅))|];
          intros [= <- <-]; cbn [Bot.seen_trade_ids length]; rewrite Hs;
          (split; [first [lia|apply post_whale_trade_at_most_one]|]);
          (split; [right; reflexivity|]); intros [e Habs]; discriminate.
      * intros [= <- <-]. cbn. split; [lia|]. split; [right; reflexivity|].
        intros [e Habs]. discriminate.
    + intros [= <- <-]. cbn. split; [lia|]. split; [left; reflexivity|].
      intros [e Habs]. discriminate.
  - intros [= <- <-]. cbn. split; [lia|]. split; [left; reflexivity|]. auto.
Qed.

End StreamingFacts.

(** ** De-duplication over a session *)

Section PollingSession.
Variable order : gset pyval -> list pyval.

Lemma find_new_whale_trades_raise st trades_data markets e :
  Monitor.find_new_whale_trades order st trades_data markets = Raise e ->
  Monitor.fetch_recent_trades trades_data = Raise e.
Proof.
  unfold Monitor.find_new_whale_trades.
  destruct (Monitor.fetch_recent_trades trades_data) as [trades|e'].
  - cbv [mbind res_bind].
    destruct (Monitor.whale_loop markets 0 trades st []). discriminate.
  - cbv [mbind res_bind]. congruence.
Qed.

(** One cycle: the seen set becomes the guard applied to the old set
    with the fetched ids added; the reported trades are whales among
    the fetched trades whose ids were not in the set, each id once. *)
Lemma find_new_whale_trades_spec st trades_data markets st' whales :
  Monitor.find_new_whale_trades order st trades_data markets = Ok (st', whales) ->
  exists trades,
    Monitor.fetch_recent_trades trades_data = Ok trades /\
    Monitor.seen_trade_ids st'
      = Monitor.compact order
          (list_to_set (List.map trade_id trades) ∪ Monitor.seen_trade_ids st) /\
    (forall w m, (w, m) ∈ whales ->
       w ∈ trades /\ (trade_id w ∉ Monitor.seen_trade_ids st) /\
       is_whale w (Monitor.threshold_dollars st) = true) /\
    NoDup (List.map (fun x => trade_id (fst x)) whales).
Proof.
  intros H.
  destruct (find_new_whale_trades_inv _ _ _ _ _ _ H)
    as (trades & st1 & Ef & El & Hseen).
  destruct (whale_loop_spec _ _ _ _ _ _ _ El)
    as (_ & Hs1 & new & Hout & Hmem & Hnd).
  cbn [app] in Hout. subst new.
  exists trades. split; [exact Ef|]. split; [rewrite Hseen, Hs1; reflexivity|].
  split; [exact Hmem|exact Hnd].
Qed.

Lemma poll_session_spec cycles : forall st st' outs,
  Monitor.poll_session order st cycles = (st', outs) ->
  Monitor.set_len (list_to_set (session_ids cycles) ∪ Monitor.seen_trade_ids st)
    <= 10000 ->
  Monitor.seen_trade_ids st'
    = list_to_set (session_ids cycles) ∪ Monitor.seen_trade_ids st /\
  NoDup (reported_ids outs) /\
  (forall id, id ∈ reported_ids outs ->
     id ∈ session_ids cycles /\ id ∉ Monitor.seen_trade_ids st).
Proof.
  induction cycles as [|[trades_data markets] rest IH]; intros st st' outs H Hsize.
  - cbn in H. injection H as <- <-. cbn.
    split; [set_solver|]. split; [constructor|]. intros id Hin. inversion Hin.
  - cbn [Monitor.poll_session] in H.
    destruct (Monitor.find_new_whale_trades order st trades_data markets)
      as [[st1 whales]|e] eqn:Ef.
    + destruct (Monitor.poll_session order st1 rest) as [st2 outs'] eqn:Er.
      injection H as <- <-.
      destruct (find_new_whale_trades_spec _ _ _ _ _ Ef)
        as (trades & Efetch & Hseen1 & Hmem & Hnd).
      cbn [session_ids] in Hsize |- *. rewrite Efetch in Hsize |- *.
      rewrite list_to_set_app_L in Hsize |- *.
      set (ids1 := list_to_set (List.map trade_id trades) : gset pyval) in *.
      set (idsR := list_to_set (session_ids rest) : gset pyval) in *.
      assert (Hs1 : Monitor.seen_trade_ids st1 = ids1 ∪ Monitor.seen_trade_ids st).
      { rewrite Hseen1. apply compact_small.
        unfold Monitor.set_len in *.
        pose proof (subseteq_size (ids1 ∪ Monitor.seen_trade_ids st)
                      (ids1 ∪ idsR ∪ Monitor.seen_trade_ids st)
                      ltac:(set_solver)). lia. }
      assert (Hsize' : Monitor.set_len (idsR ∪ Monitor.seen_trade_ids st1) <= 10000).
      { rewrite Hs1. unfold Monitor.set_len in *.
        pose proof (subseteq_size (idsR ∪ (ids1 ∪ Monitor.seen_trade_ids st))
                      (ids1 ∪ idsR ∪ Monitor.seen_trade_ids st)
                      ltac:(set_solver)). lia. }
      destruct (IH _ _ _ Er Hsize') as (Hseen2 & Hnd2 & Hrep2).
      fold idsR in Hseen2. split; [rewrite Hseen2, Hs1; set_solver|].
      unfold reported_ids in *. cbn [List.map concat].
      assert (Hw : forall id, id ∈ List.map (fun x => trade_id (fst x)) whales ->
                id ∈ List.map trade_id trades /\
                id ∉ Monitor.seen_trade_ids st).
      { intros id Hin. apply list_elem_of_fmap in Hin as ([w m] & -> & Hin).
        destruct (Hmem w m Hin) as (Hw & Hns & _). split; [|exact Hns].
        apply list_elem_of_fmap. exists w. auto. }
      split.
      * apply NoDup_app. split; [exact Hnd|]. split; [|exact Hnd2].
        intros id Hin1 Hin2. destruct (Hw id Hin1) as [Hid _].
        destruct (Hrep2 id Hin2) as [_ Hns]. apply Hns. rewrite Hs1.
        apply elem_of_union_l. unfold ids1. apply elem_of_list_to_set. exact Hid.
      * intros id Hin. apply elem_of_app in Hin as [Hin|Hin].
        -- destruct (Hw id Hin) as [Hid Hns]. split; [|exact Hns].
           apply elem_of_app. left. exact Hid.
        -- destruct (Hrep2 id Hin) as [Hid Hns]. split.
           ++ apply elem_of_app. right. exact Hid.
           ++ intros Hs. apply Hns. rewrite Hs1. set_solver.
    + injection H as <- <-.
      apply find_new_whale_trades_raise in Ef.
      cbn [session_ids]. rewrite Ef. cbn.
      split; [set_solver|]. split; [constructor|]. intros id Hin. inversion Hin.
Qed.

End PollingSession.

Section StreamingSession.
Variable upper : str -> str.
Variable order : gset pyval -> list pyval.
Variable threshold : Z.
Variable create_tweet : str -> res (option dict).

(** One frame: the seen set gains the id of the frame, and the guard
    runs afterwards unless the handler logged an exception. *)
Lemma handle_trade_spec st data fetched st' sent :
  Bot.handle_trade upper order threshold create_tweet st data fetched
    = (st', sent) ->
  let id := get data "trade_id" (PStr []) in
  (length sent <= 1)%nat /\
  (id ∈ Bot.seen_trade_ids st -> st' = st /\ sent = []) /\
  (id ∉ Bot.seen_trade_ids st ->
     Bot.seen_trade_ids st' = {[ id ]} ∪ Bot.seen_trade_ids st \/
     Bot.seen_trade_ids st'
       = Monitor.compact order ({[ id ]} ∪ Bot.seen_trade_ids st)).
Proof.
  intros H id.
  destruct (decide (id ∈ Bot.seen_trade_ids st)) as [Hin|Hnew].
  - rewrite handle_trade_seen in H by exact Hin. injection H as <- <-.
    cbn. split; [lia|]. split; [auto|]. intros Hn. contradiction.
  - destruct (handle_trade_new _ _ _ _ _ _ _ _ _ Hnew H) as (Hlen & Hs & _).
    fold id in Hs. rewrite set_add_union in Hs.
    split; [exact Hlen|]. split; [intros Hin; contradiction|]. intros _. exact Hs.
Qed.

Lemma stream_session_spec msgs : forall st st' outs,
  Bot.stream_session upper order threshold create_tweet st msgs = (st', outs) ->
  Monitor.set_len (list_to_set (stream_ids msgs) ∪ Bot.seen_trade_ids st)
    <= 10000 ->
  Bot.seen_trade_ids st' = list_to_set (stream_ids msgs) ∪ Bot.seen_trade_ids st /\
  length outs = length msgs /\
  (forall sent, sent ∈ outs -> (length sent <= 1)%nat) /\
  (forall j id,
     stream_ids msgs !! j = Some id ->
     id ∈ Bot.seen_trade_ids st \/ id ∈ take j (stream_ids msgs) ->
     outs !! j = Some []).
Proof.
  induction msgs as [|[data fetched] rest IH]; intros st st' outs H Hsize.
  - cbn in H. injection H as <- <-. cbn.
    split; [set_solver|]. split; [reflexivity|].
    split; [intros sent Hin; inversion Hin|]. intros j id Hj. discriminate.
  - cbn [Bot.stream_session] in H.
    destruct (Bot.handle_trade upper order threshold create_tweet st data fetched)
      as [st1 sent] eqn:Eh.
    destruct (Bot.stream_session upper order threshold create_tweet st1 rest)
      as [st2 outs'] eqn:Er.
    injection H as <- <-.
    cbn [stream_ids List.map fst list_to_set] in Hsize |- *.
    fold (stream_ids rest) in Hsize |- *.
    set (id0 := get data "trade_id" (PStr [])) in *.
    set (idsR := list_to_set (stream_ids rest) : gset pyval) in *.
    destruct (handle_trade_spec _ _ _ _ _ Eh) as (Hlen & Hseen & Hnew).
    fold id0 in Hseen, Hnew.
    assert (Hs1 : Bot.seen_trade_ids st1 = {[ id0 ]} ∪ Bot.seen_trade_ids st).
    { destruct (decide (id0 ∈ Bot.seen_trade_ids st)) as [Hin|Hn].
      - destruct (Hseen Hin) as [-> _]. set_solver.
      - destruct (Hnew Hn) as [Hs|Hs]; [exact Hs|].
        rewrite Hs. apply compact_small. unfold Monitor.set_len in *.
        pose proof (subseteq_size ({[id0]} ∪ Bot.seen_trade_ids st)
                      ({[id0]} ∪ idsR ∪ Bot.seen_trade_ids st)
                      ltac:(set_solver)). lia. }
    assert (Hsize' : Monitor.set_len (idsR ∪ Bot.seen_trade_ids st1) <= 10000).
    { rewrite Hs1. unfold Monitor.set_len in *.
      pose proof (subseteq_size (idsR ∪ ({[id0]} ∪ Bot.seen_trade_ids st))
                    ({[id0]} ∪ idsR ∪ Bot.seen_trade_ids st)
                    ltac:(set_solver)). lia. }
    destruct (IH _ _ _ Er Hsize') as (Hseen2 & Hlen2 & Hone & Hdup).
    fold idsR in Hseen2.
    split; [rewrite Hseen2, Hs1; set_solver|].
    split; [cbn [length]; congruence|]. split.
    + intros s Hin. apply elem_of_cons in Hin as [->|Hin]; [exact Hlen|auto].
    + intros [|j] id Hj Hprev.
      * cbn in Hj. injection Hj as <-. cbn in Hprev.
        destruct Hprev as [Hin|Hin]; [|inversion Hin].
        destruct (Hseen Hin) as [_ ->]. reflexivity.
      * cbn in Hj |- *. apply (Hdup j id Hj).
        cbn [take] in Hprev. rewrite Hs1.
        destruct Hprev as [Hin|Hin]; [left; set_solver|].
        apply elem_of_cons in Hin as [->|Hin]; [left; set_solver|right; exact Hin].
Qed.

End StreamingSession.

(** C3 (amended): a trade whose id is in the seen set is skipped before
    detection (polling) or dropped without any processing (streaming),
    and every id that is handled is added to the set, which otherwise
    changes only when the memory guard cuts it.  A polling cycle leaves
    the guard applied to the old set with every fetched id added, and
    reports only fetched whales whose ids were not in the set, each id
    once; a streaming call on a seen id changes nothing and publishes
    nothing, and on a new id publishes at most one text and leaves the
    set with the id added, cut by the guard or not.  So in a session of
    any length in which the guard never runs (the ids handled, with
    those seen before, number at most 10,000), the final set holds
    exactly those ids, no id is reported by two polling cycles or twice
    by one, and a streamed frame whose id was seen before the session or
    came in an earlier frame publishes nothing.  Once the guard has
    run, an evicted id can be detected again. *)
Theorem dedup_while_id_is_seen
    (upper : str -> str) (order : gset pyval -> list pyval) (threshold : Z)
    (create_tweet : str -> res (option dict)) :
  (forall st trades_data markets st' whales,
     Monitor.find_new_whale_trades order st trades_data markets
       = Ok (st', whales) ->
     exists trades,
       Monitor.fetch_recent_trades trades_data = Ok trades /\
       Monitor.seen_trade_ids st'
         = Monitor.compact order
             (list_to_set (List.map trade_id trades) ∪ Monitor.seen_trade_ids st) /\
       (forall w m, (w, m) ∈ whales ->
          w ∈ trades /\ (trade_id w ∉ Monitor.seen_trade_ids st) /\
          is_whale w (Monitor.threshold_dollars st) = true) /\
       NoDup (List.map (fun x => trade_id (fst x)) whales)) /\
  (forall st cycles st' outs,
     Monitor.poll_session order st cycles = (st', outs) ->
     Monitor.set_len
       (list_to_set (session_ids cycles) ∪ Monitor.seen_trade_ids st) <= 10000 ->
     Monitor.seen_trade_ids st'
       = list_to_set (session_ids cycles) ∪ Monitor.seen_trade_ids st /\
     NoDup (reported_ids outs) /\
     (forall id, id ∈ reported_ids outs ->
        id ∈ session_ids cycles /\ id ∉ Monitor.seen_trade_ids st)) /\
  (forall st data fetched st' sent,
     Bot.handle_trade upper order threshold create_tweet st data fetched
       = (st', sent) ->
     (length sent <= 1)%nat /\
     (get data "trade_id" (PStr []) ∈ Bot.seen_trade_ids st ->
        st' = st /\ sent = []) /\
     (get data "trade_id" (PStr []) ∉ Bot.seen_trade_ids st ->
        Bot.seen_trade_ids st'
          = {[ get data "trade_id" (PStr []) ]} ∪ Bot.seen_trade_ids st \/
        Bot.seen_trade_ids st'
          = Monitor.compact order
              ({[ get data "trade_id" (PStr []) ]} ∪ Bot.seen_trade_ids st))) /\
  (forall st msgs st' outs,
     Bot.stream_session upper order threshold create_tweet st msgs = (st', outs) ->
     Monitor.set_len
       (list_to_set (stream_ids msgs) ∪ Bot.seen_trade_ids st) <= 10000 ->
     Bot.seen_trade_ids st'
       = list_to_set (stream_ids msgs) ∪ Bot.seen_trade_ids st /\
     length outs = length msgs /\
     (forall sent, sent ∈ outs -> (length sent <= 1)%nat) /\
     (forall j id,
        stream_ids msgs !! j = Some id ->
        id ∈ Bot.seen_trade_ids st \/ id ∈ take j (stream_ids msgs) ->
        outs !! j = Some [])).
Proof.
  split; [|split; [|split]].
  - intros st trades_data markets st' whales H.
    exact (find_new_whale_trades_spec order _ _ _ _ _ H).
  - intros st cycles st' outs H Hsize.
    exact (poll_session_spec order cycles _ _ _ H Hsize).
  - intros st data fetched st' sent H.
    exact (handle_trade_spec upper order threshold create_tweet _ _ _ _ _ H).
  - intros st msgs st' outs H Hsize.
    exact (stream_session_spec upper order threshold create_tweet msgs _ _ _ H Hsize).
Qed.

Lemma dedup_while_id_is_seen_witness :
  let run :=
    Monitor.poll_session ascending_order (Monitor.new_monitor 100000)
      short_session in
  Monitor.set_len
    (list_to_set (session_ids short_session)
     ∪ Monitor.seen_trade_ids (Monitor.new_monitor 100000)) <= 10000 /\
  List.map (List.map (fun x => trade_id (fst x))) (snd run) = [[PInt 0]; []; []] /\
  NoDup (reported_ids (snd run)) /\
  Monitor.seen_trade_ids (fst run)
    = list_to_set (session_ids short_session)
      ∪ Monitor.seen_trade_ids (Monitor.new_monitor 100000).
Proof.
  intros run.
  assert (Hsize : Monitor.set_len
            (list_to_set (session_ids short_session)
             ∪ Monitor.seen_trade_ids (Monitor.new_monitor 100000)) <= 10000)
    by (vm_compute; discriminate).
  destruct (dedup_while_id_is_seen ascii_upper ascending_order 100000
              (fun _ => Ok None))
    as (_ & Hsession & _).
  destruct (Hsession (Monitor.new_monitor 100000) short_session (fst run) (snd run)
              (surjective_pairing run) Hsize)
    as (Hseen & Hnd & _).
  split; [exact Hsize|]. split; [vm_compute; reflexivity|].
  split; [exact Hnd|exact Hseen].
Defined.

(** ** The bound on the seen set *)

(** The polling monitor keeps the bound: the guard is the last step of
    every completed cycle. *)
Lemma find_new_whale_trades_bounded order st trades_data markets st' whales :
  valid_order order ->
  Monitor.find_new_whale_trades order st trades_data markets = Ok (st', whales) ->
  Monitor.set_len (Monitor.seen_trade_ids st') <= 10000.
Proof.
  intros Hv H.
  destruct (find_new_whale_trades_inv _ _ _ _ _ _ H) as (_ & st1 & _ & _ & ->).
  apply compact_bound. exact Hv.
Qed.

Lemma seen_ten_thousand_spec :
  Monitor.set_len seen_ten_thousand = 10000 /\
  forall x, x ∈ seen_ten_thousand ->
    exists i, x = PInt (Z.of_nat i) /\ 1 <= Z.of_nat i <= 10000.
Proof.
  unfold seen_ten_thousand, Monitor.set_len. rewrite set_of_list_eq. split.
  - rewrite size_list_to_set.
    + rewrite length_map, length_seq. lia.
    + apply NoDup_fmap_2; [|apply NoDup_seq].
      intros i j [= H]. lia.
  - intros x Hx. apply elem_of_list_to_set, list_elem_of_fmap in Hx
      as (i & -> & Hi).
    apply elem_of_seq in Hi. exists i. split; [reflexivity|lia].
Qed.

(** C6 fails in the streaming bot: the id of a frame is added before
    the trade is constructed, and when the constructor raises (here the
    normalised frame has no count and no 'side' key, so the product is
    [None * 10], count times no_price) the handler only logs, skipping
    the memory guard.  From a seen set of 10,000 ids
    the call completes with 10,001 ids and nothing published, whatever
    the iteration order of the set. *)
Theorem malformed_frame_leaves_10001_ids :
  WebSocketClient.normalized_trade sample_isoformat countless_msg
    = Ok countless_normalized /\
  Trade_init countless_normalized = Raise TypeError /\
  Monitor.set_len (Bot.seen_trade_ids full_bot) = 10000 /\
  forall upper order fetched, exists st',
    Bot.handle_trade upper order 100000 (fun _ => Ok None) full_bot
      countless_normalized fetched = (st', []) /\
    Monitor.set_len (Bot.seen_trade_ids st') = 10001.
Proof.
  destruct seen_ten_thousand_spec as [Hsize Hmem].
  assert (Et : Trade_init countless_normalized = Raise TypeError)
    by (vm_compute; reflexivity).
  assert (Hid : get countless_normalized "trade_id" (PStr []) = PInt 10001)
    by (vm_compute; reflexivity).
  assert (Hnew : PInt 10001 ∉ Bot.seen_trade_ids full_bot).
  { intros Hin. apply Hmem in Hin as (i & [= Hi] & Hr). lia. }
  split; [vm_compute; reflexivity|]. split; [exact Et|]. split; [exact Hsize|].
  intros upper order fetched.
  destruct (Bot.handle_trade upper order 100000 (fun _ => Ok None) full_bot
              countless_normalized fetched) as [st' sent] eqn:H.
  rewrite <- Hid in Hnew.
  destruct (handle_trade_new _ _ _ _ _ _ _ _ _ Hnew H) as (_ & _ & Hraise).
  destruct (Hraise (ex_intro _ TypeError Et)) as [Hs ->].
  exists st'. split; [reflexivity|].
  rewrite Hs, set_len_add, bool_decide_eq_false_2 by exact Hnew.
  cbn [Bot.seen_trade_ids full_bot]. lia.
Qed.

(** * Further properties *)

(** ** The polling monitor *)

(** X1: a completed polling cycle leaves at most 10,000 ids in the seen
    set, keeps the threshold, and only holds ids that were seen before
    or belong to a trade fetched in this cycle. *)
Theorem polling_cycle_keeps_seen_set_bounded
    (order : gset pyval -> list pyval) st trades_data markets st' whales :
  valid_order order ->
  Monitor.find_new_whale_trades order st trades_data markets = Ok (st', whales) ->
  Monitor.set_len (Monitor.seen_trade_ids st') <= 10000 /\
  Monitor.threshold_dollars st' = Monitor.threshold_dollars st /\
  exists trades,
    Monitor.fetch_recent_trades trades_data = Ok trades /\
    Monitor.seen_trade_ids st'
      ⊆ list_to_set (List.map trade_id trades) ∪ Monitor.seen_trade_ids st.
Proof.
  intros Hv H. split; [exact (find_new_whale_trades_bounded _ _ _ _ _ _ Hv H)|].
  pose proof H as H0. unfold Monitor.find_new_whale_trades in H0.
  destruct (find_new_whale_trades_inv _ _ _ _ _ _ H)
    as (trades & st1 & Ef & El & Hseen).
  destruct (whale_loop_spec _ _ _ _ _ _ _ El) as (Hth & Hs1 & _).
  rewrite Ef in H0. cbv [mbind res_bind] in H0. rewrite El in H0.
  injection H0 as <-. split; [exact Hth|].
  exists trades. split; [exact Ef|].
  cbn [Monitor.seen_trade_ids]. rewrite <- Hs1. apply compact_subseteq, Hv.
Qed.

Lemma polling_cycle_keeps_seen_set_bounded_witness :
  exists st' whales,
    Monitor.find_new_whale_trades ascending_order (Monitor.new_monitor 100000)
      (fst whale_cycle) (snd whale_cycle) = Ok (st', whales) /\
    Monitor.set_len (Monitor.seen_trade_ids st') <= 10000.
Proof.
  destruct (Monitor.find_new_whale_trades ascending_order
              (Monitor.new_monitor 100000) (fst whale_cycle) (snd whale_cycle))
    as [[st' whales]|e] eqn:E.
  - exists st', whales. split; [reflexivity|].
    exact (proj1 (polling_cycle_keeps_seen_set_bounded _ _ _ _ _ _
                    valid_ascending_order E)).
  - exfalso. revert E. vm_compute. discriminate.
Defined.

(** X2: the memory guard leaves a set of at most 10,000 ids untouched;
    a larger one is replaced by a subset of exactly 5,000 of its ids,
    whichever order the set is iterated in. *)
Theorem compact_keeps_5000_of_a_large_set
    (order : gset pyval -> list pyval) (seen : gset pyval) :
  valid_order order ->
  Monitor.compact order seen ⊆ seen /\
  (Monitor.set_len seen <= 10000 -> Monitor.compact order seen = seen) /\
  (10000 < Monitor.set_len seen ->
     Monitor.set_len (Monitor.compact order seen) = 5000).
Proof.
  intros Hv. split; [apply compact_subseteq, Hv|].
  split; [apply compact_small|apply compact_size, Hv].
Qed.

Lemma compact_keeps_5000_of_a_large_set_witness :
  let seen := set_add (PInt 10001) seen_ten_thousand in
  Monitor.set_len (Monitor.compact ascending_order seen) = 5000.
Proof.
  intros seen.
  apply (proj2 (proj2 (compact_keeps_5000_of_a_large_set ascending_order seen
                         valid_ascending_order))).
  unfold seen. rewrite set_len_add.
  destruct seen_ten_thousand_spec as [Hsize Hmem].
  rewrite bool_decide_eq_false_2; [lia|].
  intros Hin. apply Hmem in Hin as (i & [= Hi] & Hr). lia.
Defined.

(** ** The market cache *)

Lemma get_market_details_cases st ticker fetched :
  (exists m, Monitor.market_cache st !! ticker = Some m /\
     Monitor.get_market_details st ticker fetched = (st, Some m)) \/
  (Monitor.market_cache st !! ticker = None /\
   (fetched = None \/ fetched = Some ∅) /\
   Monitor.get_market_details st ticker fetched = (st, None)) \/
  (exists m, Monitor.market_cache st !! ticker = None /\
     fetched = Some m /\ m <> ∅ /\
     Monitor.get_market_details st ticker fetched
     = (Monitor.mkMonitor (Monitor.threshold_dollars st)
          (Monitor.seen_trade_ids st)
          (<[ticker := m]> (Monitor.market_cache st)),
        Some m)).
Proof.
  unfold Monitor.get_market_details.
  destruct (Monitor.market_cache st !! ticker) as [m|] eqn:E.
  - left. exists m. rewrite E. auto.
  - right. destruct fetched as [m|].
    + destruct (bool_decide (m = ∅)) eqn:Em.
      * apply bool_decide_eq_true in Em. subst m.
        left. rewrite E. auto.
      * apply bool_decide_eq_false in Em. right. exists m.
        cbn [Monitor.market_cache]. rewrite lookup_insert_eq. auto.
    + left. rewrite E. auto.
Qed.

(** X3: market details are fetched on a miss and kept from then on: a
    cached ticker is answered from the cache, whatever the exchange
    would say; on a miss a failed or empty answer returns [None] and
    stores nothing, a non-empty answer is stored and returned; no call
    changes or removes an entry, the seen set or the threshold. *)
Theorem market_cache_fetch_on_miss st ticker fetched :
  let st' := fst (Monitor.get_market_details st ticker fetched) in
  let answer := snd (Monitor.get_market_details st ticker fetched) in
  (forall m, Monitor.market_cache st !! ticker = Some m ->
     st' = st /\ answer = Some m) /\
  (Monitor.market_cache st !! ticker = None ->
     fetched = None \/ fetched = Some ∅ -> st' = st /\ answer = None) /\
  (forall m, Monitor.market_cache st !! ticker = None ->
     fetched = Some m -> m <> ∅ ->
     answer = Some m /\ Monitor.market_cache st' !! ticker = Some m) /\
  (forall k v, Monitor.market_cache st !! k = Some v ->
     Monitor.market_cache st' !! k = Some v) /\
  Monitor.seen_trade_ids st' = Monitor.seen_trade_ids st /\
  Monitor.threshold_dollars st' = Monitor.threshold_dollars st.
Proof.
  cbv zeta.
  destruct (get_market_details_cases st ticker fetched)
    as [(m & Ec & ->)|[(Ec & Hf & ->)|(m & Ec & -> & Hm & ->)]];
    cbn [fst snd Monitor.market_cache Monitor.seen_trade_ids
         Monitor.threshold_dollars].
  - split; [intros m' Hm'; split; congruence|].
    split; [intros Hn; congruence|].
    split; [intros m' Hn; congruence|]. auto.
  - split; [intros m' Hm'; congruence|].
    split; [auto|].
    split; [intros m' _ -> Hne; destruct Hf as [Hf|Hf]; congruence|]. auto.
  - split; [intros m' Hm'; congruence|].
    split; [intros _ [Hf|Hf]; congruence|].
    split; [intros m' _ [= <-] _; split; [reflexivity|apply lookup_insert_eq]|].
    split; [|auto]. intros k v Hk.
    rewrite lookup_insert_ne by congruence. exact Hk.
Qed.

Lemma market_cache_fetch_on_miss_witness :
  let st := Monitor.new_monitor 100000 in
  let r := Monitor.get_market_details st (PStr (lit "FED-24DEC")) (Some fed_market) in
  snd r = Some fed_market /\
  Monitor.market_cache (fst r) !! PStr (lit "FED-24DEC") = Some fed_market.
Proof.
  intros st r.
  destruct (market_cache_fetch_on_miss st (PStr (lit "FED-24DEC")) (Some fed_market))
    as (_ & _ & H & _).
  apply (H fed_market).
  - apply lookup_empty.
  - reflexivity.
  - apply insert_non_empty.
Defined.

(** ** Fetching and constructing trades *)

(** X4: [fetch_recent_trades] returns no trade when the request failed
    or the list is empty; from a list of records it returns exactly the
    trades of the records that can be constructed, so at most one per
    record, and one per record when all of them can. *)
Theorem fetch_recent_trades_skips_malformed_records (l : list dict) :
  Monitor.fetch_recent_trades None = Ok [] /\
  exists trades,
    Monitor.fetch_recent_trades (Some (KalshiClient.JList l)) = Ok trades /\
    (length trades <= length l)%nat /\
    (forall t, t ∈ trades <-> exists d, d ∈ l /\ Trade_init d = Ok t) /\
    (Forall (fun d => exists t, Trade_init d = Ok t) l ->
       List.map Ok trades = List.map Trade_init l).
Proof.
  split; [reflexivity|].
  set (f := fun d => match Trade_init d with Ok t => Some t | Raise _ => None end).
  exists (omap f l). split.
  { unfold Monitor.fetch_recent_trades, Monitor.json_truthy.
    destruct l as [|d l]; [reflexivity|]. reflexivity. }
  split.
  { clear. induction l as [|d l IH]; [reflexivity|].
    cbn [omap list_omap length]. destruct (f d); cbn [length]; lia. }
  split.
  - intros t. rewrite list_elem_of_omap. unfold f. split.
    + intros (d & Hd & E). exists d. split; [exact Hd|].
      destruct (Trade_init d); congruence.
    + intros (d & Hd & E). exists d. split; [exact Hd|]. rewrite E. reflexivity.
  - induction 1 as [|d l' (t & E) _ IH]; [reflexivity|].
    cbn [omap list_omap List.map]. unfold f at 1. rewrite E.
    cbn [List.map]. f_equal. exact IH.
Qed.

Lemma fetch_recent_trades_skips_malformed_records_witness :
  exists trades,
    Monitor.fetch_recent_trades
      (Some (KalshiClient.JList [fed_trade; countless_normalized])) = Ok trades /\
    List.map value_cents trades = [PInt 150000].
Proof.
  destruct (fetch_recent_trades_skips_malformed_records
              [fed_trade; countless_normalized])
    as (_ & trades & E & _).
  exists trades. split; [exact E|].
  revert E. vm_compute. intros [= <-]. reflexivity.
Defined.



(** ** The streaming client *)

Lemma listen_turn_delay_bounds c t :
  1 <= WebSocketClient.reconnect_delay c <= 60 ->
  WebSocketClient.max_reconnect_delay c = 60 ->
  1 <= WebSocketClient.reconnect_delay (fst (WebSocketClient.listen_turn c t)) <= 60 /\
  WebSocketClient.max_reconnect_delay (fst (WebSocketClient.listen_turn c t)) = 60 /\
  WebSocketClient.running (fst (WebSocketClient.listen_turn c t))
    = WebSocketClient.running c /\
  0 <= snd (WebSocketClient.listen_turn c t) <= 60.
Proof.
  intros Hd Hm. unfold WebSocketClient.listen_turn, WebSocketClient.connect.
  destruct c as [ws run d mx]. cbn in Hd, Hm |- *. subst mx.
  destruct ws, t as [[] [|[]| |]]; cbn -[Z.min Z.mul];
    (split; [lia|]); (split; [reflexivity|]); (split; [reflexivity|lia]).
Qed.

(** X6: from a new client, whatever the network does (failed and
    successful connects, frames, timeouts, closed connections, errors, in
    any order), the reconnect delay stays between 1 and 60 seconds, the
    maximum stays 60, and no turn of the loop sleeps longer than 60
    seconds. *)
Theorem reconnect_delay_stays_within_bounds
    (ts : list WebSocketClient.turn) (t : WebSocketClient.turn) :
  let c := WebSocketClient.listen_turns WebSocketClient.new_client ts in
  1 <= WebSocketClient.reconnect_delay c <= 60 /\
  WebSocketClient.max_reconnect_delay c = 60 /\
  0 <= snd (WebSocketClient.listen_turn c t) <= 60.
Proof.
  cbv zeta.
  assert (H : forall c,
            1 <= WebSocketClient.reconnect_delay c <= 60 ->
            WebSocketClient.max_reconnect_delay c = 60 ->
            1 <= WebSocketClient.reconnect_delay (WebSocketClient.listen_turns c ts)
              <= 60 /\
            WebSocketClient.max_reconnect_delay (WebSocketClient.listen_turns c ts)
              = 60).
  { induction ts as [|t0 ts IH]; intros c Hd Hm; [auto|].
    cbn [WebSocketClient.listen_turns].
    destruct (listen_turn_delay_bounds c t0 Hd Hm) as (Hd' & Hm' & _).
    apply IH; assumption. }
  destruct (H WebSocketClient.new_client) as [Hd Hm]; [cbn; lia|reflexivity|].
  split; [exact Hd|]. split; [exact Hm|].
  apply (listen_turn_delay_bounds _ t Hd Hm).
Qed.

(** X7: [handle_message] hands nothing to the trade callback for a
    frame whose type is not 'trade' (its 'msg', when present, being an
    object).  For a trade frame whose timestamp
    is an integer the clock can convert, it hands over a dictionary with
    exactly the seven keys of the normalised record, the ticker taken
    from 'market_ticker' and the time in ISO format followed by 'Z'; a
    timestamp that is not a number makes it raise [TypeError]. *)
Theorem handle_message_forwards_only_trade_frames
    (isoformat : Z -> res str) (data : WebSocketClient.frame) :
  let msg := default ∅ (WebSocketClient.frame_msg data) in
  (WebSocketClient.frame_type data <> Some (PStr (lit "trade")) ->
     WebSocketClient.handle_message isoformat data = Ok None) /\
  (WebSocketClient.frame_type data = Some (PStr (lit "trade")) ->
     (forall z s, get msg "ts" (PInt 0) = PInt z -> isoformat z = Ok s ->
        exists nd,
          WebSocketClient.handle_message isoformat data = Ok (Some nd) /\
          dom nd = list_to_set ["trade_id"; "ticker"; "taker_side"; "count";
                                "yes_price"; "no_price"; "created_time"] /\
          nd !! "ticker" = Some (WebSocketClient.get_none msg "market_ticker") /\
          nd !! "created_time" = Some (PStr (s ++ lit "Z"))) /\
     (forall z e, get msg "ts" (PInt 0) = PInt z -> isoformat z = Raise e ->
        WebSocketClient.handle_message isoformat data = Raise e) /\
     ((forall z, get msg "ts" (PInt 0) <> PInt z) ->
        WebSocketClient.handle_message isoformat data = Raise TypeError)).
Proof.
  cbv zeta. unfold WebSocketClient.handle_message. split.
  - intros H. rewrite bool_decide_eq_false_2 by exact H. reflexivity.
  - intros H. rewrite bool_decide_eq_true_2 by exact H.
    unfold WebSocketClient.normalized_trade, WebSocketClient.timestamp_to_iso.
    split; [|split].
    + intros z s Ets Eiso. rewrite Ets, Eiso. cbv [mbind res_bind].
      eexists. split; [reflexivity|]. split.
      * rewrite !dom_insert_L, dom_empty_L. cbn [list_to_set]. reflexivity.
      * split; simplify_map_eq; reflexivity.
    + intros z e Ets Eiso. rewrite Ets, Eiso. reflexivity.
    + intros Hts. destruct (get _ "ts" (PInt 0)) as [|z|s]; try reflexivity.
      exfalso. exact (Hts z eq_refl).
Qed.

Lemma handle_message_forwards_only_trade_frames_witness :
  WebSocketClient.handle_message sample_isoformat
    (WebSocketClient.mkFrame (Some (PStr (lit "subscribed"))) None) = Ok None /\
  WebSocketClient.handle_message sample_isoformat
    (WebSocketClient.mkFrame (Some (PStr (lit "trade")))
       (Some (<["ts" := PStr (lit "now")]> ∅))) = Raise TypeError.
Proof.
  split.
  - apply (proj1 (handle_message_forwards_only_trade_frames sample_isoformat
                    (WebSocketClient.mkFrame (Some (PStr (lit "subscribed"))) None))).
    vm_compute. discriminate.
  - apply (proj2 (handle_message_forwards_only_trade_frames sample_isoformat
                    (WebSocketClient.mkFrame (Some (PStr (lit "trade")))
                       (Some (<["ts" := PStr (lit "now")]> ∅)))));
      [reflexivity|].
    intros z. vm_compute. discriminate.
Defined.

(** ** Request signing *)





(** X9: the headers of a request are the four authentication headers,
    except that a header given by the caller replaces the generated one
    of the same name; without headers of the caller they are the
    generated ones, which carry the key id, the timestamp and the
    signature of timestamp, method and path. *)
Theorem caller_headers_replace_generated
    (sign_message : str -> str) (api_key_id timestamp method endpoint : str)
    (extra : KalshiAuth.headers) (k : string) :
  let generated :=
    KalshiAuth.get_auth_headers sign_message api_key_id timestamp method endpoint in
  KalshiAuth.request_headers sign_message api_key_id timestamp method endpoint
    (Some extra) !! k
    = match extra !! k with
      | Some v => Some v
      | None => generated !! k
      end /\
  KalshiAuth.request_headers sign_message api_key_id timestamp method endpoint None
    = generated /\
  dom generated = list_to_set ["Content-Type"; "KALSHI-ACCESS-KEY";
                               "KALSHI-ACCESS-SIGNATURE"; "KALSHI-ACCESS-TIMESTAMP"] /\
  generated !! "KALSHI-ACCESS-KEY" = Some api_key_id /\
  generated !! "KALSHI-ACCESS-TIMESTAMP" = Some timestamp /\
  generated !! "KALSHI-ACCESS-SIGNATURE"
    = Some (sign_message (timestamp ++ method ++ KalshiAuth.before_query endpoint)).
Proof.
  cbv zeta. unfold KalshiAuth.request_headers. split.
  - rewrite lookup_union. destruct (extra !! k) as [v|];
      destruct (_ !! k); reflexivity.
  - split; [reflexivity|]. unfold KalshiAuth.get_auth_headers, KalshiAuth.msg_string.
    split; [rewrite !dom_insert_L, dom_empty_L; reflexivity|].
    repeat split; simplify_map_eq; reflexivity.
Qed.

(** ** Configuration *)

(** X10: [validate] accepts a configuration exactly when the six
    credentials are all non-empty; a rejection always comes with a
    message, an acceptance with none; the base URL, the interval and the
    threshold are not looked at; and the configuration before the
    environment is loaded is rejected for its Kalshi key id. *)
Theorem validate_accepts_exactly_complete_credentials (c : Config.config) :
  (Config.validate c = (true, None) <->
     Config.KALSHI_API_KEY_ID c <> [] /\ Config.KALSHI_PRIVATE_KEY c <> [] /\
     Config.X_API_KEY c <> [] /\ Config.X_API_SECRET c <> [] /\
     Config.X_ACCESS_TOKEN c <> [] /\ Config.X_ACCESS_TOKEN_SECRET c <> []) /\
  (fst (Config.validate c) = false <-> exists msg, snd (Config.validate c) = Some msg) /\
  (forall base interval threshold,
     Config.validate
       (Config.mkConfig (Config.KALSHI_API_KEY_ID c) (Config.KALSHI_PRIVATE_KEY c)
          base (Config.X_API_KEY c) (Config.X_API_SECRET c)
          (Config.X_ACCESS_TOKEN c) (Config.X_ACCESS_TOKEN_SECRET c)
          interval threshold)
     = Config.validate c) /\
  Config.validate Config.defaults
    = (false, Some (lit "KALSHI_API_KEY_ID is required")).
Proof.
  destruct c as [k1 k2 base k3 k4 k5 k6 interval threshold].
  unfold Config.validate, Config.missing. cbn.
  split; [|split; [|split; [reflexivity|reflexivity]]].
  - repeat (case_bool_decide; [split; [discriminate|intros Hall; tauto]|]).
    split; [intros _; tauto|reflexivity].
  - repeat (case_bool_decide;
            [cbn; split; [intros _; eexists; reflexivity|reflexivity]|]).
    cbn. split; [discriminate|intros [msg Hmsg]; discriminate].
Qed.

Lemma validate_accepts_exactly_complete_credentials_witness :
  Config.validate
    (Config.mkConfig (lit "key-id") (lit "pem") (lit "https://api.elections.kalshi.com")
       (lit "k") (lit "s") (lit "t") (lit "ts") 60 100000)
  = (true, None).
Proof.
  apply (proj1 (validate_accepts_exactly_complete_credentials _)).
  cbn. repeat split; discriminate.
Defined.

(** ** Publishing *)

Lemma outgoing_text_length text : len (XClient.outgoing_text text) <= 280.
Proof.
  unfold XClient.outgoing_text, len.
  destruct (280 <? Z.of_nat (length text)) eqn:E.
  - apply Z.ltb_lt in E. rewrite length_app, length_take.
    cbn [lit length list_ascii_of_string List.map]. lia.
  - apply Z.ltb_ge in E. exact E.
Qed.

Lemma bot_post_whale_trade_fits upper create_tweet trade market :
  Forall (fun s => len s <= 280)
    (Bot.post_whale_trade upper create_tweet trade market).
Proof.
  unfold Bot.post_whale_trade.
  destruct (TweetFormatter.format_whale_tweet upper trade market);
    [|constructor].
  constructor; [apply outgoing_text_length|constructor].
Qed.

(** X11: the polling bot hands at most one text per whale trade to the
    X API, none of more than 280 characters, and sleeps two seconds after
    each text it sends when the cycle found more than one whale, and not
    at all otherwise. *)
Theorem post_whale_trades_fit_and_pace
    (upper : str -> str) (create_tweet : str -> res (option dict))
    (whale_trades : list (Trade * dict)) :
  let r := PollingBot.post_whale_trades upper create_tweet whale_trades in
  Forall (fun s => len s <= 280) (fst r) /\
  (length (fst r) <= length whale_trades)%nat /\
  snd r = if 1 <? Z.of_nat (length whale_trades)
          then 2 * Z.of_nat (length (fst r)) else 0.
Proof.
  cbv zeta. unfold PollingBot.post_whale_trades.
  generalize (1 <? Z.of_nat (length whale_trades)). intros many.
  induction whale_trades as [|[trade market] rest IH].
  - cbn. split; [constructor|]. split; [lia|]. destruct many; reflexivity.
  - cbn [PollingBot.post_loop].
    destruct (PollingBot.post_loop upper create_tweet many rest) as [sent slept].
    cbn [fst snd] in IH. destruct IH as (Hfit & Hlen & Hslept).
    destruct (TweetFormatter.format_whale_tweet upper trade market);
      cbn [fst snd length].
    + split; [constructor; [apply outgoing_text_length|exact Hfit]|].
      split; [lia|]. rewrite Hslept. destruct many; lia.
    + split; [exact Hfit|]. split; [lia|exact Hslept].
Qed.

(** X12: the streaming bot publishes at most one text per frame, of at
    most 280 characters, and only for a frame whose id was not in the
    seen set, whose trade could be constructed and is a whale at the
    threshold, and for which non-empty market details were cached or
    fetched. *)
Theorem streamed_publication_is_a_new_whale
    (upper : str -> str) (order : gset pyval -> list pyval) (threshold : Z)
    (create_tweet : str -> res (option dict))
    (st : Bot.bot) (data : dict) (fetched : option dict) :
  let r := Bot.handle_trade upper order threshold create_tweet st data fetched in
  Forall (fun s => len s <= 280) (snd r) /\
  (length (snd r) <= 1)%nat /\
  (snd r <> [] ->
     (get data "trade_id" (PStr []) ∉ Bot.seen_trade_ids st) /\
     exists t m,
       Trade_init data = Ok t /\ is_whale t threshold = true /\ m <> ∅ /\
       (Bot.market_cache st !! ticker t = Some m \/
        Bot.market_cache st !! ticker t = None /\ fetched = Some m)).
Proof.
  cbv zeta. unfold Bot.handle_trade.
  destruct (bool_decide (get data "trade_id" (PStr []) ∈ Bot.seen_trade_ids st))
    eqn:Eseen.
  { cbn. split; [constructor|]. split; [lia|]. intros H. contradiction. }
  apply bool_decide_eq_false in Eseen.
  destruct (Trade_init data) as [t|e].
  2:{ cbn. split; [constructor|]. split; [lia|]. intros H. contradiction. }
  destruct (TweetFormatter.val_upper upper (side t)).
  2:{ cbn. split; [constructor|]. split; [lia|]. intros H. contradiction. }
  destruct (is_whale t threshold) eqn:Ew.
  2:{ cbn. split; [constructor|]. split; [lia|]. intros H. contradiction. }
  unfold Bot.get_market_details. cbn [Bot.market_cache Bot.seen_trade_ids].
  destruct (Bot.market_cache st !! ticker t) as [m|] eqn:Ec.
  - cbn [Bot.market_cache]. rewrite Ec.
    destruct (bool_decide (m = ∅)) eqn:Em; cbn [snd].
    + split; [constructor|]. split; [cbn; lia|]. intros H. contradiction.
    + apply bool_decide_eq_false in Em.
      split; [apply bot_post_whale_trade_fits|].
      split; [apply post_whale_trade_at_most_one|].
      intros _. split; [exact Eseen|]. exists t, m.
      split; [reflexivity|]. split; [exact Ew|]. split; [exact Em|].
      left. exact Ec.
  - destruct fetched as [m|].
    + destruct (bool_decide (m = ∅)) eqn:Em.
      * cbn [Bot.market_cache]. rewrite Ec. cbn [snd].
        split; [constructor|]. split; [cbn; lia|]. intros H. contradiction.
      * cbn [Bot.market_cache]. rewrite lookup_insert_eq, Em. cbn [snd].
        apply bool_decide_eq_false in Em.
        split; [apply bot_post_whale_trade_fits|].
        split; [apply post_whale_trade_at_most_one|].
        intros _. split; [exact Eseen|]. exists t, m.
        split; [reflexivity|]. split; [exact Ew|]. split; [exact Em|].
        right. split; [exact Ec|reflexivity].
    + cbn [Bot.market_cache]. rewrite Ec. cbn [snd].
      split; [constructor|]. split; [cbn; lia|]. intros H. contradiction.
Qed.

Lemma streamed_publication_is_a_new_whale_witness :
  exists (t : Trade) (m : dict),
    Trade_init whale_trade = Ok t /\ is_whale t 100000 = true /\ m <> ∅.
Proof.
  destruct (proj2 (proj2 (streamed_publication_is_a_new_whale ascii_upper
                            ascending_order 100000 (fun _ => Ok None)
                            Bot.new_bot whale_trade (Some fed_market))))
    as (_ & t & m & Ht & Hw & Hm & _).
  - vm_compute. discriminate.
  - exists t, m. auto.
Defined.

(** X13: truncation by [post_tweet] is idempotent and keeps the first
    277 characters: posting the text that was sent sends it unchanged;
    the call returns no id when the X API raises or answers without
    data, and the 'id' of the data otherwise. *)
Theorem post_tweet_truncation_is_idempotent
    (create_tweet : str -> res (option dict)) (text : str) :
  let p := XClient.post_tweet create_tweet text in
  XClient.sent_text (XClient.post_tweet create_tweet (XClient.sent_text p))
    = XClient.sent_text p /\
  firstn 277 (XClient.sent_text p) = firstn 277 text /\
  (forall e, create_tweet (XClient.sent_text p) = Raise e ->
     XClient.returned_id p = None) /\
  (create_tweet (XClient.sent_text p) = Ok None -> XClient.returned_id p = None) /\
  (forall data, create_tweet (XClient.sent_text p) = Ok (Some data) ->
     XClient.returned_id p = data !! "id").
Proof.
  cbv zeta. unfold XClient.post_tweet. cbn [XClient.sent_text XClient.returned_id].
  split; [|split].
  - pose proof (outgoing_text_length text) as H.
    unfold XClient.outgoing_text at 1.
    destruct (280 <? len (XClient.outgoing_text text)) eqn:E; [|reflexivity].
    apply Z.ltb_lt in E. lia.
  - unfold XClient.outgoing_text.
    destruct (280 <? len text) eqn:E; [|reflexivity].
    apply Z.ltb_lt in E. unfold len in E.
    rewrite take_app_le by (rewrite length_take; lia).
    rewrite take_take. reflexivity.
  - split; [intros e ->; reflexivity|].
    split; [intros ->; reflexivity|intros data ->; reflexivity].
Qed.

Lemma post_tweet_truncation_is_idempotent_witness :
  XClient.returned_id
    (XClient.post_tweet (fun _ => Raise ValueError) (List.repeat 120%N 300)) = None.
Proof.
  exact (proj1 (proj2 (proj2 (post_tweet_truncation_is_idempotent
                                (fun _ => Raise ValueError) (List.repeat 120%N 300))))
           ValueError eq_refl).
Defined.

(** ** Completeness of the polling detection *)



